(** * The URL-shortener dashboard: session gate, link list, link creation, expiry

    A shallow embedding of the logic of the [Dashboard] component
    (page/Dashboard.tsx): the session gate of its [useEffect], [fetchUserUrls],
    [handleSubmit] and [getValidityStatus], followed by the properties the
    specification states about them. *)

From Stdlib Require Import ZArith NArith List String Ascii Lia.
From Stdlib Require Import DecimalString DecimalZ.
From stdpp Require Import base gmap.
Import ListNotations.

Local Open Scope Z_scope.
Local Set Warnings "-register-all".

(** ** JavaScript strings

    A JavaScript string is a sequence of UTF-16 code units.  Literals of the
    source are written [str "..."], every literal of the source being ASCII;
    the empty string is [[]]. *)

Definition jsstring : Type := list N.

Definition str (s : string) : jsstring :=
  List.map N_of_ascii (list_ascii_of_string s).

(** Truthiness of a string: only the empty string is falsy. *)
Definition string_truthy (s : jsstring) : bool :=
  match s with [] => false | _ :: _ => true end.

(** ** ExpiryCalculator: [getValidityStatus] *)

Module Expiry.

(** The numbers this function computes with are time values in milliseconds,
    their differences and a day count.  Time values are integers of magnitude
    at most 8.64e15 and [now] is the current time, so the difference is an
    integer below 2^53 and is exact as a double; its quotient by 86400000 is
    either an integer or at least 1/86400000 away from one, more than half an
    ulp at that magnitude, so [Math.ceil] of the rounded quotient is the
    ceiling of the exact one.  The only other value is NaN, the time value of
    an Invalid Date. *)
Inductive Number : Type :=
| Int (z : Z)
| NaN.

(** [new Date(expiryDate)]: parsing the date string is the platform's; what
    the function sees is a time value or an Invalid Date. *)
Inductive Date : Type :=
| TimeValue (ms : Z)
| InvalidDate.

Definition getTime (d : Date) : Number :=
  match d with
  | TimeValue ms => Int ms
  | InvalidDate => NaN
  end.

(** Relational and arithmetic operators; every comparison with NaN is false. *)
Definition gt (a b : Number) : bool :=
  match a, b with
  | Int x, Int y => x >? y
  | _, _ => false
  end.

Definition le (a b : Number) : bool :=
  match a, b with
  | Int x, Int y => x <=? y
  | _, _ => false
  end.

Definition strict_neq (a b : Number) : bool :=
  match a, b with
  | Int x, Int y => negb (x =? y)
  | _, _ => true
  end.

Definition sub (a b : Number) : Number :=
  match a, b with
  | Int x, Int y => Int (x - y)
  | _, _ => NaN
  end.

(** [Math.ceil(a / b)] for a positive integer divisor. *)
Definition Math_ceil_div (a : Number) (b : Z) : Number :=
  match a with
  | Int x => Int (- ((- x) / b))
  | NaN => NaN
  end.

(** Number-to-string conversion of an integer below 1e21: its decimal digits,
    with a minus sign when negative. *)
Definition Number_toString (n : Number) : jsstring :=
  match n with
  | Int z => str (NilEmpty.string_of_int (Z.to_int z))
  | NaN => str "NaN"
  end.

Definition MS_PER_DAY : Z := 1000 * 60 * 60 * 24.

Record validity : Type := { status : jsstring; color : jsstring }.

Definition daysLeft (expiry : Date) (now : Z) : Number :=
  Math_ceil_div (sub (getTime expiry) (Int now)) MS_PER_DAY.

(** [now] is the time value of [new Date()], always a valid date. *)
Definition getValidityStatus (expiry : Date) (now : Z) : validity :=
  if gt (Int now) (getTime expiry) then
    {| status := str "Expired"; color := str "text-red-500" |}
  else
    let daysLeft := daysLeft expiry now in
    {| status :=
         Number_toString daysLeft ++ str " day"
           ++ (if strict_neq daysLeft (Int 1) then str "s" else [])
           ++ str " left";
       color :=
         if le daysLeft (Int 2) then str "text-yellow-500"
         else str "text-green-500" |}.

(** The specification names the three colours as urgency tiers. *)
Inductive urgencyTier : Type := expired | urgent | normal.

Definition tier_of_color (c : jsstring) : option urgencyTier :=
  if bool_decide (c = str "text-red-500") then Some expired
  else if bool_decide (c = str "text-yellow-500") then Some urgent
  else if bool_decide (c = str "text-green-500") then Some normal
  else None.

Definition urgency (v : validity) : option urgencyTier :=
  tier_of_color (color v).

End Expiry.

(** ** Values of a response body

    The component never computes with a number of a response body: it only
    tests its truthiness and, for a number found under [message], converts it
    to a string.  A number is represented by these two observations. *)
Record json_number : Type :=
  { number_truthy : bool; number_text : jsstring }.

(** The value [response.json()] resolves to.  [JObject] lists the own
    properties of the parsed object in their enumeration order, the order of
    [Object.values]. *)
Inductive json : Type :=
| JNull
| JBool (b : bool)
| JNumber (n : json_number)
| JString (s : jsstring)
| JArray (elements : list json)
| JObject (properties : list (jsstring * json)).

(** A JavaScript value read from such data: [None] is [undefined]. *)
Definition jsvalue : Type := option json.

(** What a [throw] or a rejected promise carries; the component only asks
    whether it is an [Error] and for its [message]. *)
Inductive thrown : Type :=
| ErrorObject (message : jsstring)
| NonError.

(** A computation without effects that may throw; also a settled promise. *)
Inductive result (A : Type) : Type :=
| Returns (a : A)
| Throws (e : thrown).
Arguments Returns {A} a.
Arguments Throws {A} e.

#[global] Instance result_ret : MRet result := fun A a => Returns a.
#[global] Instance result_bind : MBind result := fun A B f r =>
  match r with
  | Returns a => f a
  | Throws e => Throws e
  end.

(** The text of the TypeError an engine raises is its own; nothing below
    depends on it. *)
Definition TypeError (what : string) : thrown := ErrorObject (str what).

Definition truthy (v : json) : bool :=
  match v with
  | JNull => false
  | JBool b => b
  | JNumber n => number_truthy n
  | JString s => string_truthy s
  | JArray _ | JObject _ => true
  end.

Definition value_truthy (v : jsvalue) : bool :=
  match v with
  | Some j => truthy j
  | None => false
  end.

Definition typeof (v : json) : jsstring :=
  match v with
  | JNull | JArray _ | JObject _ => str "object"
  | JBool _ => str "boolean"
  | JNumber _ => str "number"
  | JString _ => str "string"
  end.

Definition Array_isArray (v : jsvalue) : bool :=
  match v with
  | Some (JArray _) => true
  | _ => false
  end.

Fixpoint own_property {A} (k : jsstring) (props : list (jsstring * A)) : option A :=
  match props with
  | [] => None
  | (k', v) :: rest =>
      if bool_decide (k' = k) then Some v else own_property k rest
  end.

(** The property names the component reads.  No built-in prototype defines
    one of them and none is an array index or [length], so only the own
    properties of a parsed object can hold one. *)
Inductive member : Type := urls_ | message_ | _id_.

Definition member_name (m : member) : jsstring :=
  match m with
  | urls_ => str "urls"
  | message_ => str "message"
  | _id_ => str "_id"
  end.

(** [v.m]: reading a property of null throws. *)
Definition Get (v : json) (m : member) : result jsvalue :=
  match v with
  | JNull => Throws (TypeError "Cannot read properties of null")
  | JObject props => Returns (own_property (member_name m) props)
  | _ => Returns None
  end.

(** [m in v]: the right operand must be an object. *)
Definition in_operator (m : member) (v : json) : result bool :=
  match v with
  | JObject props =>
      Returns (match own_property (member_name m) props with
               | Some _ => true
               | None => false
               end)
  | JArray _ => Returns false
  | _ => Throws (TypeError "Cannot use 'in' operator to search in a primitive")
  end.

Definition Object_values (v : json) : result (list json) :=
  match v with
  | JNull => Throws (TypeError "Cannot convert undefined or null to object")
  | JBool _ | JNumber _ => Returns []
  | JString s => Returns (List.map (fun c => JString [c]) s)
  | JArray l => Returns l
  | JObject props => Returns (List.map snd props)
  end.

(** [Array.prototype.filter] with a callback that may throw. *)
Fixpoint Array_filter (f : json -> result bool) (l : list json) : result (list json) :=
  match l with
  | [] => Returns []
  | x :: rest =>
      keep ← f x;
      rest' ← Array_filter f rest;
      Returns (if keep : bool then x :: rest' else rest')
  end.

(** ToString, as the [Error] constructor applies it to its argument.  An
    array is joined with commas, null elements giving the empty string.  A
    parsed object converts through [Object.prototype.toString], unless an own
    property shadows [toString]: a parsed value is never callable, and
    [valueOf] then offers no primitive either. *)
Fixpoint ToString (v : json) : result jsstring :=
  match v with
  | JNull => Returns (str "null")
  | JBool true => Returns (str "true")
  | JBool false => Returns (str "false")
  | JNumber n => Returns (number_text n)
  | JString s => Returns s
  | JArray l =>
      (fix join (l : list json) : result jsstring :=
         match l with
         | [] => Returns []
         | x :: rest =>
             first ← (match x with JNull => Returns [] | _ => ToString x end);
             match rest with
             | [] => Returns first
             | _ :: _ => others ← join rest; Returns (first ++ str "," ++ others)
             end
         end) l
  | JObject props =>
      match own_property (str "toString") props with
      | Some _ => Throws (TypeError "Cannot convert object to primitive value")
      | None => Returns (str "[object Object]")
      end
  end.

(** ** [String.prototype.trim] *)

(** WhiteSpace and LineTerminator code points of ECMAScript. *)
Definition is_white_space (c : N) : bool :=
  (((9 <=? c) && (c <=? 13)) || (c =? 32) || (c =? 160) || (c =? 5760)
   || ((8192 <=? c) && (c <=? 8202)) || (c =? 8232) || (c =? 8233)
   || (c =? 8239) || (c =? 8287) || (c =? 12288) || (c =? 65279))%N.

Fixpoint trimStart (s : jsstring) : jsstring :=
  match s with
  | [] => []
  | c :: rest => if is_white_space c then trimStart rest else s
  end.

Definition trimEnd (s : jsstring) : jsstring := rev (trimStart (rev s)).

Definition trim (s : jsstring) : jsstring := trimEnd (trimStart s).

(** ** Component state and the world around it *)

Record form : Type :=
  { originalUrl : jsstring; customName : jsstring; validityPeriod : jsstring }.

(** A request handed to [fetch].  [body] is the object given to
    [JSON.stringify], its properties in creation order. *)
Record request : Type :=
  { url : jsstring;
    method : jsstring;
    headers : list (jsstring * jsstring);
    body : option (list (jsstring * jsstring)) }.

Record response : Type :=
  { ok : bool;
    response_json : result json }.

Inductive console_entry : Type :=
| console_log (label : jsstring) (payload : json)
| console_error (label : jsstring) (error : thrown).

(** The [useState] cells of the component, the persistent store it reads, and
    what it does to the outside: navigations, requests handed to [fetch],
    console output and alerts, each in order of occurrence. *)
Record state : Type :=
  { urls : list json;
    urlsLoading : bool;
    formData : form;
    loading : bool;
    userEmail : jsstring;
    showModal : bool;
    createdUrl : json;
    localStorage : gmap jsstring jsstring;
    navigations : list jsstring;
    requests : list request;
    console : list console_entry;
    alerts : list jsstring }.

Definition defaultForm : form :=
  {| originalUrl := []; customName := []; validityPeriod := str "7days" |}.

(** The initial values given to [useState]. *)
Definition mount (storage : gmap jsstring jsstring) : state :=
  {| urls := []; urlsLoading := true; formData := defaultForm; loading := false;
     userEmail := []; showModal := false; createdUrl := JNull;
     localStorage := storage;
     navigations := []; requests := []; console := []; alerts := [] |}.

Definition set_urls (v : list json) (s : state) : state :=
  {| urls := v; urlsLoading := urlsLoading s; formData := formData s;
     loading := loading s; userEmail := userEmail s; showModal := showModal s;
     createdUrl := createdUrl s; localStorage := localStorage s;
     navigations := navigations s; requests := requests s;
     console := console s; alerts := alerts s |}.

Definition set_urlsLoading (v : bool) (s : state) : state :=
  {| urls := urls s; urlsLoading := v; formData := formData s;
     loading := loading s; userEmail := userEmail s; showModal := showModal s;
     createdUrl := createdUrl s; localStorage := localStorage s;
     navigations := navigations s; requests := requests s;
     console := console s; alerts := alerts s |}.

Definition set_formData (v : form) (s : state) : state :=
  {| urls := urls s; urlsLoading := urlsLoading s; formData := v;
     loading := loading s; userEmail := userEmail s; showModal := showModal s;
     createdUrl := createdUrl s; localStorage := localStorage s;
     navigations := navigations s; requests := requests s;
     console := console s; alerts := alerts s |}.

Definition set_loading (v : bool) (s : state) : state :=
  {| urls := urls s; urlsLoading := urlsLoading s; formData := formData s;
     loading := v; userEmail := userEmail s; showModal := showModal s;
     createdUrl := createdUrl s; localStorage := localStorage s;
     navigations := navigations s; requests := requests s;
     console := console s; alerts := alerts s |}.

Definition set_userEmail (v : jsstring) (s : state) : state :=
  {| urls := urls s; urlsLoading := urlsLoading s; formData := formData s;
     loading := loading s; userEmail := v; showModal := showModal s;
     createdUrl := createdUrl s; localStorage := localStorage s;
     navigations := navigations s; requests := requests s;
     console := console s; alerts := alerts s |}.

Definition set_showModal (v : bool) (s : state) : state :=
  {| urls := urls s; urlsLoading := urlsLoading s; formData := formData s;
     loading := loading s; userEmail := userEmail s; showModal := v;
     createdUrl := createdUrl s; localStorage := localStorage s;
     navigations := navigations s; requests := requests s;
     console := console s; alerts := alerts s |}.

Definition set_createdUrl (v : json) (s : state) : state :=
  {| urls := urls s; urlsLoading := urlsLoading s; formData := formData s;
     loading := loading s; userEmail := userEmail s; showModal := showModal s;
     createdUrl := v; localStorage := localStorage s;
     navigations := navigations s; requests := requests s;
     console := console s; alerts := alerts s |}.

Definition set_navigations (v : list jsstring) (s : state) : state :=
  {| urls := urls s; urlsLoading := urlsLoading s; formData := formData s;
     loading := loading s; userEmail := userEmail s; showModal := showModal s;
     createdUrl := createdUrl s; localStorage := localStorage s;
     navigations := v; requests := requests s;
     console := console s; alerts := alerts s |}.

Definition set_requests (v : list request) (s : state) : state :=
  {| urls := urls s; urlsLoading := urlsLoading s; formData := formData s;
     loading := loading s; userEmail := userEmail s; showModal := showModal s;
     createdUrl := createdUrl s; localStorage := localStorage s;
     navigations := navigations s; requests := v;
     console := console s; alerts := alerts s |}.

Definition set_console (v : list console_entry) (s : state) : state :=
  {| urls := urls s; urlsLoading := urlsLoading s; formData := formData s;
     loading := loading s; userEmail := userEmail s; showModal := showModal s;
     createdUrl := createdUrl s; localStorage := localStorage s;
     navigations := navigations s; requests := requests s;
     console := v; alerts := alerts s |}.

Definition set_alerts (v : list jsstring) (s : state) : state :=
  {| urls := urls s; urlsLoading := urlsLoading s; formData := formData s;
     loading := loading s; userEmail := userEmail s; showModal := showModal s;
     createdUrl := createdUrl s; localStorage := localStorage s;
     navigations := navigations s; requests := requests s;
     console := console s; alerts := v |}.

(** ** Statements with effects

    How a statement list ends: normally, by a [return] statement, or by a
    throw.  [Return] and [Throw] skip the statements that follow. *)
Inductive completion (A : Type) : Type :=
| Normal (a : A)
| Return
| Throw (e : thrown).
Arguments Normal {A} a.
Arguments Return {A}.
Arguments Throw {A} e.

Definition exec (A : Type) : Type := state -> completion A * state.

#[global] Instance exec_ret : MRet exec := fun A a s => (Normal a, s).
#[global] Instance exec_bind : MBind exec := fun A B f m s =>
  match m s with
  | (Normal a, s') => f a s'
  | (Return, s') => (Return, s')
  | (Throw e, s') => (Throw e, s')
  end.

Definition skip : exec unit := mret tt.
Definition return_ {A} : exec A := fun s => (Return, s).
Definition throw {A} (e : thrown) : exec A := fun s => (Throw e, s).
Definition modify (f : state -> state) : exec unit := fun s => (Normal tt, f s).
Definition read {A} (f : state -> A) : exec A := fun s => (Normal (f s), s).

(** An expression that may throw; [await] of a settled promise. *)
Definition eval {A} (r : result A) : exec A :=
  match r with
  | Returns a => mret a
  | Throws e => throw e
  end.
Definition await {A} (p : result A) : exec A := eval p.

(** [try { body } catch (error) { handler } finally { finalizer }] *)
Definition try_catch_finally
    (body : exec unit) (handler : thrown -> exec unit) (finalizer : exec unit)
  : exec unit := fun s =>
  let (c, s1) := body s in
  let (c', s2) :=
    match c with
    | Throw e => handler e s1
    | _ => (c, s1)
    end in
  let (cf, s3) := finalizer s2 in
  match cf with
  | Normal _ => (c', s3)
  | _ => (cf, s3)
  end.

(** A function body as its caller sees it: a [return] statement ends the call
    normally.  For an async function this is its promise once settled, a
    throw being a rejection. *)
Definition call (body : exec unit) : exec unit := fun s =>
  match body s with
  | (Return, s') => (Normal tt, s')
  | r => r
  end.

(** A call of an async function whose promise is dropped: nothing the callee
    throws reaches the caller.  The callee is run to its end at the place of
    the call; what it writes after its first [await] is in fact written after
    the caller has gone on, which here are cells the caller does not touch
    any more. *)
Definition detached (body : exec unit) : exec unit := fun s =>
  (Normal tt, snd (call body s)).

Definition setUrls v := modify (set_urls v).
Definition setUrlsLoading v := modify (set_urlsLoading v).
Definition setFormData v := modify (set_formData v).
Definition setLoading v := modify (set_loading v).
Definition setUserEmail v := modify (set_userEmail v).
Definition setShowModal v := modify (set_showModal v).
Definition setCreatedUrl v := modify (set_createdUrl v).

Definition navigate (to : jsstring) : exec unit :=
  modify (fun s => set_navigations (navigations s ++ [to]) s).

Definition alert (text : jsstring) : exec unit :=
  modify (fun s => set_alerts (alerts s ++ [text]) s).

Definition console_write (e : console_entry) : exec unit :=
  modify (fun s => set_console (console s ++ [e]) s).

Definition localStorage_getItem (key : jsstring) : exec (option jsstring) :=
  read (fun s => localStorage s !! key).

(** [!token] for the [string | null] that [getItem] returns. *)
Definition item_truthy (v : option jsstring) : bool :=
  match v with
  | Some s => string_truthy s
  | None => false
  end.

(** [v || d] for such a value. *)
Definition item_or (v : option jsstring) (d : jsstring) : jsstring :=
  match v with
  | Some s => if string_truthy s then s else d
  | None => d
  end.

(** The string that a truthy item is. *)
Definition item_string (v : option jsstring) : jsstring :=
  match v with
  | Some s => s
  | None => []
  end.

Definition strict_eq_null (v : json) : bool :=
  match v with
  | JNull => true
  | _ => false
  end.

(** The elements of a value that [Array.isArray] has accepted. *)
Definition array_elements (v : jsvalue) : list json :=
  match v with
  | Some (JArray l) => l
  | _ => []
  end.

(** ** The component *)

Section Dashboard.

(** [import.meta.env.VITE_API_BASE_URL], fixed when the application is built. *)
Variable API_BASE_URL : jsstring.

(** The remote service and the transport: how the promise of [fetch] settles
    for a request, given the requests made before it. *)
Variable network : list request -> request -> result response.

Definition fetch (req : request) : exec response := fun s =>
  let s' := set_requests (requests s ++ [req]) s in
  await (network (requests s) req) s'.

(** Lines 72-82 of [fetchUserUrls]: the array extracted from the body. *)
Definition urlsArray (data : json) : result (list json) :=
  hasUrls ← (if truthy data then
               field ← Get data urls_;
               mret (value_truthy field && Array_isArray field)
             else mret false);
  if hasUrls : bool then
    field ← Get data urls_;
    mret (array_elements field)
  else if Array_isArray (Some data) then
    mret (array_elements (Some data))
  else if truthy data && bool_decide (typeof data = str "object") then
    values ← Object_values data;
    Array_filter
      (fun item =>
         if bool_decide (typeof item = str "object") && negb (strict_eq_null item)
         then in_operator _id_ item
         else mret false)
      values
  else
    mret [].

Definition myurls_request (token : jsstring) : request :=
  {| url := API_BASE_URL ++ str "/api/url/myurls";
     method := str "GET";
     headers := [(str "Content-Type", str "application/json");
                 (str "Authorization", str "Bearer " ++ token)];
     body := None |}.

Definition fetchUserUrls (token : jsstring) : exec unit :=
  try_catch_finally
    (setUrlsLoading true;;
     response ← fetch (myurls_request token);
     (if negb (ok response)
      then throw (ErrorObject (str "Failed to fetch URLs"))
      else skip);;
     data ← await (response_json response);
     console_write (console_log (str "API response:") data);;
     urlsArray ← eval (urlsArray data);
     console_write (console_log (str "Processed URLs array:") (JArray urlsArray));;
     setUrls urlsArray)
    (fun error =>
       console_write (console_error (str "Error fetching URLs:") error);;
       setUrls [])
    (setUrlsLoading false).

(** The effect run when the component is mounted. *)
Definition useEffect : exec unit :=
  token ← localStorage_getItem (str "urltoken");
  email ← localStorage_getItem (str "userEmail");
  (if negb (item_truthy token)
   then navigate (str "/");; return_
   else skip);;
  setUserEmail (item_or email []);;
  detached (fetchUserUrls (item_string token)).

(** Lines 107-115 of [handleSubmit]: the object given to [JSON.stringify]. *)
Definition requestBody (formData : form) : list (jsstring * jsstring) :=
  let requestBody :=
    [(str "originalUrl", originalUrl formData);
     (str "validityPeriod", validityPeriod formData)] in
  if string_truthy (trim (customName formData))
  then requestBody ++ [(str "customName", customName formData)]
  else requestBody.

Definition shorten_request (token : jsstring) (formData : form) : request :=
  {| url := API_BASE_URL ++ str "/api/url/shorten";
     method := str "POST";
     headers := [(str "Content-Type", str "application/json");
                 (str "Authorization", str "Bearer " ++ token)];
     body := Some (requestBody formData) |}.

(** [data.message || "Failed to create short URL"], converted to a string by
    the [Error] constructor. *)
Definition failure_message (data : json) : result jsstring :=
  message ← Get data message_;
  match message with
  | Some m => if truthy m then ToString m else mret (str "Failed to create short URL")
  | None => mret (str "Failed to create short URL")
  end.

(** The form's submit handler; [formData] is the value the handler closed
    over, the form as it is when the handler starts. *)
Definition handleSubmit : exec unit :=
  formData ← read formData;
  setLoading true;;
  try_catch_finally
    (token ← localStorage_getItem (str "urltoken");
     (if negb (item_truthy token)
      then navigate (str "/");; return_
      else skip);;
     let requestBody := requestBody formData in
     console_write
       (console_log (str "Request body:")
          (JObject (List.map (fun kv => (fst kv, JString (snd kv))) requestBody)));;
     response ← fetch (shorten_request (item_string token) formData);
     data ← await (response_json response);
     (if negb (ok response)
      then message ← eval (failure_message data); throw (ErrorObject message)
      else skip);;
     setCreatedUrl data;;
     setShowModal true;;
     setFormData
       {| originalUrl := []; customName := [];
          validityPeriod := str "7days" |};;
     detached (fetchUserUrls (item_string token)))
    (fun error =>
       console_write (console_error (str "Error creating short URL:") error);;
       alert (match error with
              | ErrorObject message => message
              | NonError => str "Failed to create short URL"
              end))
    (setLoading false).

End Dashboard.

(** [{showModal && createdUrl && ...}]: whether the confirmation is rendered. *)
Definition confirmation_rendered (s : state) : bool :=
  showModal s && truthy (createdUrl s).

(** ** The other handlers and the list pane *)

(** The three controls whose [onChange] is [handleInputChange], by their
    [name] attribute. *)
Inductive input_name : Type := originalUrl_ | customName_ | validityPeriod_.

Definition input_name_string (name : input_name) : jsstring :=
  match name with
  | originalUrl_ => str "originalUrl"
  | customName_ => str "customName"
  | validityPeriod_ => str "validityPeriod"
  end.

(** [{ ...formData, [name]: value }] *)
Definition spread_with (formData : form) (name : input_name) (value : jsstring) : form :=
  match name with
  | originalUrl_ =>
      {| originalUrl := value; customName := customName formData;
         validityPeriod := validityPeriod formData |}
  | customName_ =>
      {| originalUrl := originalUrl formData; customName := value;
         validityPeriod := validityPeriod formData |}
  | validityPeriod_ =>
      {| originalUrl := originalUrl formData; customName := customName formData;
         validityPeriod := value |}
  end.


(** [name] and [value] are [e.target.name] and [e.target.value]; the two
    values logged after the label are recorded as their list.  [formData] is
    the form as it is when the handler starts. *)
Definition handleInputChange (name : input_name) (value : jsstring) : exec unit :=
  formData ← read formData;
  console_write
    (console_log (str "Input changed:")
       (JArray [JString (input_name_string name); JString value]));;
  setFormData (spread_with formData name value).

Definition set_localStorage (v : gmap jsstring jsstring) (s : state) : state :=
  {| urls := urls s; urlsLoading := urlsLoading s; formData := formData s;
     loading := loading s; userEmail := userEmail s; showModal := showModal s;
     createdUrl := createdUrl s; localStorage := v;
     navigations := navigations s; requests := requests s;
     console := console s; alerts := alerts s |}.

Definition localStorage_removeItem (key : jsstring) : exec unit :=
  modify (fun s => set_localStorage (delete key (localStorage s)) s).

Definition handleLogout : exec unit :=
  localStorage_removeItem (str "urltoken");;
  localStorage_removeItem (str "userEmail");;
  localStorage_removeItem (str "isAuthenticated");;
  navigate (str "/").

Definition closeModal : exec unit :=
  setShowModal false;;
  setCreatedUrl JNull.

(** Lines 295-306 of the markup: which branch of the list pane is taken.
    [Rows] is the branch that maps over the collection; what rendering each
    row then does is not part of this definition. *)
Inductive list_pane : Type :=
| Loading
| NoUrlsYet
| Rows (links : list json).

Definition list_pane_of (s : state) : list_pane :=
  if urlsLoading s then Loading
  else if Nat.eqb (length (urls s)) 0 then NoUrlsYet
  else Rows (urls s).

(** ** A refresh nobody awaits

    Both calls of [fetchUserUrls] (lines 48 and 146) drop its promise, so the
    function runs in two steps with other handlers possibly in between: what
    runs at the call, up to the [await] of [fetch], and what runs once the
    promise of [fetch] has settled, with [answer] as its outcome. *)



(** ** The specification's reading of a response body and of a blank name

    Section 4.2 of the specification decodes a body into one of three named
    shapes, with a fallback; these definitions follow its words and are
    compared with the code below. *)

Module Spec.

Inductive shape : Type :=
| CollectionField (links : list json)
| BareSequence (links : list json)
| KeyedMapping (properties : list (jsstring * json))
| Unrecognised.

Definition decode (body : json) : shape :=
  match body with
  | JArray links => BareSequence links
  | JObject properties =>
      match own_property (str "urls") properties with
      | Some (JArray links) => CollectionField links
      | _ => KeyedMapping properties
      end
  | _ => Unrecognised
  end.

(** A value that is itself an object carrying an identifier field. *)
Definition carries_identifier (v : json) : bool :=
  match v with
  | JObject properties =>
      match own_property (str "_id") properties with
      | Some _ => true
      | None => false
      end
  | _ => false
  end.

Definition normalize (body : json) : list json :=
  match decode body with
  | CollectionField links => links
  | BareSequence links => links
  | KeyedMapping properties =>
      List.filter carries_identifier (List.map snd properties)
  | Unrecognised => []
  end.

(** A blank custom name: empty, or white space only. *)
Definition blank (name : jsstring) : bool := forallb is_white_space name.

End Spec.

(** * Properties *)

(** ** Strings *)

Lemma str_inj (a b : string) : str a = str b -> a = b.
Proof.
  unfold str. intros H.
  rewrite <- (string_of_list_ascii_of_string a),
          <- (string_of_list_ascii_of_string b).
  f_equal.
  revert H. generalize (list_ascii_of_string a) (list_ascii_of_string b).
  induction l as [|x l IH]; intros [|y l'] H; simpl in H; try discriminate.
  - reflexivity.
  - injection H as Hxy Hl.
    rewrite <- (ascii_N_embedding x), <- (ascii_N_embedding y), Hxy.
    f_equal. now apply IH.
Qed.

Module ExpiryFacts.
Import Expiry.

Lemma MS_PER_DAY_value : MS_PER_DAY = 86400000.
Proof. reflexivity. Qed.

(** The quotient computed is the ceiling of the exact quotient. *)
Lemma ceil_div_bounds (x b : Z) :
  0 < b -> (- ((- x) / b) - 1) * b < x <= - ((- x) / b) * b.
Proof.
  intros Hb.
  pose proof (Z.div_mod (- x) b ltac:(lia)) as Hdm.
  pose proof (Z.mod_pos_bound (- x) b Hb) as Hr.
  nia.
Qed.

Lemma Number_toString_inj (a b : Z) :
  Number_toString (Int a) = Number_toString (Int b) -> a = b.
Proof.
  simpl. intros H. apply str_inj in H.
  apply DecimalZ.to_int_inj.
  pose proof (NilEmpty.isi (Z.to_int a)) as Ha.
  pose proof (NilEmpty.isi (Z.to_int b)) as Hb'.
  rewrite H in Ha. congruence.
Qed.

(** The two branches of [getValidityStatus] on a valid date. *)
Lemma getValidityStatus_expired (expiry now : Z) :
  now > expiry ->
  getValidityStatus (TimeValue expiry) now
  = {| status := str "Expired"; color := str "text-red-500" |}.
Proof.
  intros H. unfold getValidityStatus. simpl.
  destruct (Z.gtb_spec now expiry); [reflexivity | lia].
Qed.

Lemma getValidityStatus_valid (expiry now : Z) :
  now <= expiry ->
  let d := - ((- (expiry - now)) / MS_PER_DAY) in
  getValidityStatus (TimeValue expiry) now
  = {| status :=
         Number_toString (Int d) ++ str " day"
           ++ (if negb (d =? 1) then str "s" else []) ++ str " left";
       color :=
         if d <=? 2 then str "text-yellow-500" else str "text-green-500" |}.
Proof.
  intros H. unfold getValidityStatus. simpl.
  destruct (Z.gtb_spec now expiry); [lia | reflexivity].
Qed.

Lemma daysLeft_valid (expiry now : Z) :
  daysLeft (TimeValue expiry) now = Int (- ((- (expiry - now)) / MS_PER_DAY)).
Proof. reflexivity. Qed.

Lemma zero_days_label (d : Z) :
  Number_toString (Int d) ++ str " day"
    ++ (if negb (d =? 1) then str "s" else []) ++ str " left"
  = str "0 days left" -> d = 0.
Proof.
  destruct (Z.eqb_spec d 1) as [-> | Hne]; simpl negb; cbv iota.
  - intros H. vm_compute in H. discriminate.
  - intros H.
    change (str "0 days left")
      with (Number_toString (Int 0) ++ str " day" ++ str "s" ++ str " left") in H.
    apply app_inv_tail in H. now apply Number_toString_inj.
Qed.

End ExpiryFacts.

Module ExpiryClaims.
Import Expiry ExpiryFacts.

(** C2.  For every expiry time value and every [now]: past the expiry the
    status is "Expired" in the expired tier, whatever the overrun; otherwise
    the day count [d] is the ceiling of the remaining time over one day (the
    integer with [(d-1) days < expiry - now <= d days]), the status is
    "[d] day left" for one day and "[d] days left" otherwise, and the tier is
    urgent when [d <= 2] and normal when not. *)
Theorem classify_cases (expiry now : Z) :
  let v := getValidityStatus (TimeValue expiry) now in
  (now > expiry -> status v = str "Expired" /\ urgency v = Some expired) /\
  (now <= expiry ->
   exists d : Z,
     (d - 1) * 86400000 < expiry - now <= d * 86400000 /\
     daysLeft (TimeValue expiry) now = Int d /\
     status v
     = Number_toString (Int d) ++ str (if d =? 1 then " day left" else " days left") /\
     urgency v = Some (if d <=? 2 then urgent else normal)).
Proof.
  intros v. split.
  - intros H. subst v. rewrite getValidityStatus_expired by assumption.
    split; reflexivity.
  - intros H. subst v. rewrite (getValidityStatus_valid _ _ H).
    exists (- ((- (expiry - now)) / MS_PER_DAY)).
    split; [| split; [| split]].
    + rewrite <- MS_PER_DAY_value. apply ceil_div_bounds. reflexivity.
    + apply daysLeft_valid.
    + cbn [status].
      destruct (- ((- (expiry - now)) / MS_PER_DAY) =? 1); reflexivity.
    + unfold urgency. cbn [color].
      destruct (- ((- (expiry - now)) / MS_PER_DAY) <=? 2); reflexivity.
Qed.

Lemma classify_cases_witness :
  status (getValidityStatus (TimeValue 0) 1) = str "Expired"
  /\ exists d : Z,
       (d - 1) * 86400000 < 172800001 - 0 <= d * 86400000 /\
       daysLeft (TimeValue 172800001) 0 = Int d /\
       status (getValidityStatus (TimeValue 172800001) 0)
       = Number_toString (Int d) ++ str (if d =? 1 then " day left" else " days left") /\
       urgency (getValidityStatus (TimeValue 172800001) 0)
       = Some (if d <=? 2 then urgent else normal).
Proof.
  split.
  - apply (proj1 (classify_cases 0 1)). lia.
  - apply (proj2 (classify_cases 172800001 0)). lia.
Defined.

(** C7, as the code has it.  On a date not yet passed, a count of one day is
    labelled "1 day left" and every other count [d], zero included, is
    labelled "[d] days left"; the count is the ceiling of the remaining time
    over one day.  It is zero, and the label "0 days left", only for a query
    at the very instant of expiry: a query before that instant with at most a
    day to go, in particular one on the same calendar day as the expiry (in
    UTC or at any fixed offset from it), has a count of one and the label
    "1 day left". *)
Theorem label_unit_agreement (expiry now : Z) :
  now <= expiry ->
  exists d : Z,
    daysLeft (TimeValue expiry) now = Int d /\ 0 <= d /\
    (d - 1) * 86400000 < expiry - now <= d * 86400000 /\
    (d = 1 -> status (getValidityStatus (TimeValue expiry) now) = str "1 day left") /\
    (d <> 1 ->
     status (getValidityStatus (TimeValue expiry) now)
     = Number_toString (Int d) ++ str " days left") /\
    (d = 0 -> status (getValidityStatus (TimeValue expiry) now) = str "0 days left") /\
    (d = 0 <-> now = expiry) /\
    (now < expiry -> expiry - now <= 86400000 ->
     d = 1 /\
     status (getValidityStatus (TimeValue expiry) now) = str "1 day left") /\
    (forall offset,
       now < expiry ->
       (now + offset) / 86400000 = (expiry + offset) / 86400000 ->
       d = 1 /\
       status (getValidityStatus (TimeValue expiry) now) = str "1 day left").
Proof.
  intros H. rewrite (getValidityStatus_valid _ _ H). cbn [status].
  set (d := - ((- (expiry - now)) / MS_PER_DAY)).
  pose proof (ceil_div_bounds (expiry - now) MS_PER_DAY ltac:(reflexivity)) as Hd.
  fold d in Hd. rewrite MS_PER_DAY_value in Hd.
  assert (Hone : d = 1 ->
                 Number_toString (Int d) ++ str " day"
                   ++ (if negb (d =? 1) then str "s" else []) ++ str " left"
                 = str "1 day left") by (intros ->; reflexivity).
  exists d. split; [reflexivity|]. split; [lia|]. split; [exact Hd|].
  split; [exact Hone|].
  split; [| split; [| split; [| split]]].
  - intros Hne. destruct (Z.eqb_spec d 1); [contradiction | reflexivity].
  - intros ->. reflexivity.
  - lia.
  - intros Hlt Hday. assert (d = 1) by lia. split; [assumption | auto].
  - intros offset Hlt Hsame.
    assert (expiry - now < 86400000).
    { pose proof (Z.div_mod (now + offset) 86400000 ltac:(lia)) as Hn.
      pose proof (Z.mod_pos_bound (now + offset) 86400000 ltac:(lia)) as Hnr.
      pose proof (Z.div_mod (expiry + offset) 86400000 ltac:(lia)) as He.
      pose proof (Z.mod_pos_bound (expiry + offset) 86400000 ltac:(lia)) as Her.
      rewrite Hsame in Hn. lia. }
    assert (d = 1) by lia. split; [assumption | auto].
Qed.

Lemma label_unit_agreement_witness :
  exists d : Z,
    daysLeft (TimeValue 43620000) 43619999 = Int d /\ 0 <= d /\
    (d - 1) * 86400000 < 43620000 - 43619999 <= d * 86400000 /\
    (d = 1 ->
     status (getValidityStatus (TimeValue 43620000) 43619999) = str "1 day left") /\
    (d <> 1 ->
     status (getValidityStatus (TimeValue 43620000) 43619999)
     = Number_toString (Int d) ++ str " days left") /\
    (d = 0 ->
     status (getValidityStatus (TimeValue 43620000) 43619999) = str "0 days left") /\
    (d = 0 <-> 43619999 = 43620000) /\
    (43619999 < 43620000 -> 43620000 - 43619999 <= 86400000 ->
     d = 1 /\
     status (getValidityStatus (TimeValue 43620000) 43619999) = str "1 day left") /\
    (forall offset,
       43619999 < 43620000 ->
       (43619999 + offset) / 86400000 = (43620000 + offset) / 86400000 ->
       d = 1 /\
       status (getValidityStatus (TimeValue 43620000) 43619999) = str "1 day left").
Proof. apply (label_unit_agreement 43620000 43619999). lia. Defined.

(** C7 as stated fails: one millisecond before an expiry at 12:07 UTC of the
    same day the label is "1 day left", not "0 days left". *)
Lemma same_day_before_expiry_is_one_day :
  43619999 < 43620000 /\
  43619999 / 86400000 = 43620000 / 86400000 /\
  status (getValidityStatus (TimeValue 43620000) 43619999) = str "1 day left" /\
  status (getValidityStatus (TimeValue 43620000) 43619999) <> str "0 days left".
Proof.
  split; [lia|]. split; [reflexivity|]. split; [reflexivity|].
  vm_compute. discriminate.
Qed.

(** C9.  Strictly before the expiry the day count is at least one; the label
    "0 days left" in the urgent tier is produced exactly when [now] equals
    the expiry time, the test for "Expired" being strict. *)
Theorem zero_days_exactly_at_expiry (expiry now : Z) :
  (now < expiry ->
   exists d : Z, daysLeft (TimeValue expiry) now = Int d /\ 1 <= d) /\
  (status (getValidityStatus (TimeValue expiry) now) = str "0 days left"
   /\ urgency (getValidityStatus (TimeValue expiry) now) = Some urgent
   <-> now = expiry).
Proof.
  pose proof (ceil_div_bounds (expiry - now) MS_PER_DAY ltac:(reflexivity)) as Hd.
  rewrite MS_PER_DAY_value in Hd.
  split.
  - intros H. eexists. split; [apply daysLeft_valid|].
    rewrite MS_PER_DAY_value. lia.
  - split.
    + intros [Hs _].
      destruct (Z.le_gt_cases now expiry) as [Hle | Hgt].
      * rewrite (getValidityStatus_valid _ _ Hle) in Hs. cbn [status] in Hs.
        apply zero_days_label in Hs. rewrite MS_PER_DAY_value in Hs. lia.
      * rewrite getValidityStatus_expired in Hs by lia.
        vm_compute in Hs. discriminate.
    + intros ->. rewrite getValidityStatus_valid by lia.
      rewrite Z.sub_diag. split; reflexivity.
Qed.

Lemma zero_days_exactly_at_expiry_witness :
  exists d : Z, daysLeft (TimeValue 5) 4 = Int d /\ 1 <= d.
Proof. apply (proj1 (zero_days_exactly_at_expiry 5 4)). lia. Defined.

End ExpiryClaims.

(** ** Normalisation of a response body *)

Lemma Array_filter_identifier (l : list json) :
  Array_filter
    (fun item =>
       if bool_decide (typeof item = str "object") && negb (strict_eq_null item)
       then in_operator _id_ item
       else mret false) l
  = Returns (List.filter Spec.carries_identifier l).
Proof.
  induction l as [|x l IH]; [reflexivity|].
  cbn [Array_filter List.filter]. rewrite IH.
  destruct x as [ | b | n | s | elements | properties ]; try reflexivity.
Qed.

Lemma urlsArray_normalize (data : json) :
  urlsArray data = Returns (Spec.normalize data).
Proof.
  destruct data as [ | b | n | s | elements | properties ].
  - reflexivity.
  - destruct b; reflexivity.
  - unfold urlsArray. cbn. destruct (number_truthy n); reflexivity.
  - destruct s; reflexivity.
  - reflexivity.
  - unfold urlsArray, Spec.normalize, Spec.decode.
    cbn [truthy Get member_name mbind result_bind mret result_ret].
    destruct (own_property (str "urls") properties) as [field|] eqn:Hfield.
    + destruct field as [ | b | n | s | elements | fields ]; cbn;
        try (apply Array_filter_identifier).
      * destruct b; cbn; apply Array_filter_identifier.
      * destruct (number_truthy n); cbn; apply Array_filter_identifier.
      * destruct s; cbn; apply Array_filter_identifier.
      * reflexivity.
    + cbn. apply Array_filter_identifier.
Qed.

(** ** Running the handlers *)

Ltac run :=
  cbv beta iota delta
    [handleSubmit useEffect fetchUserUrls fetch try_catch_finally call detached
     mbind mret exec_bind exec_ret result_bind result_ret
     skip return_ throw modify read eval await
     setUrls setUrlsLoading setFormData setLoading setUserEmail setShowModal
     setCreatedUrl navigate alert console_write localStorage_getItem];
  cbn [fst snd negb
       urls urlsLoading formData loading userEmail showModal createdUrl
       localStorage navigations requests console alerts
       set_urls set_urlsLoading set_formData set_loading set_userEmail
       set_showModal set_createdUrl set_navigations set_requests set_console
       set_alerts].

(** [fetchUserUrls] in closed form.  [outcome] is the parsed body when the
    request succeeds with a success status and a body that parses, and
    otherwise what is thrown inside the [try]. *)
Lemma fetchUserUrls_run API network token s :
  let req := myurls_request API token in
  let outcome : result json :=
    response ← network (requests s) req;
    if ok response then response_json response
    else Throws (ErrorObject (str "Failed to fetch URLs")) in
  call (fetchUserUrls API network token) s
  = (Normal tt,
     {| urls := match outcome with
                | Returns data => Spec.normalize data
                | Throws _ => []
                end;
        urlsLoading := false;
        formData := formData s; loading := loading s;
        userEmail := userEmail s; showModal := showModal s;
        createdUrl := createdUrl s; localStorage := localStorage s;
        navigations := navigations s;
        requests := requests s ++ [req];
        console :=
          console s ++
          match outcome with
          | Returns data =>
              [console_log (str "API response:") data;
               console_log (str "Processed URLs array:")
                 (JArray (Spec.normalize data))]
          | Throws e => [console_error (str "Error fetching URLs:") e]
          end;
        alerts := alerts s |}).
Proof.
  intros req outcome. subst outcome req. run.
  destruct (network (requests s) (myurls_request API token)) as [response | e];
    [| reflexivity].
  run. destruct (ok response); run; [| reflexivity].
  destruct (response_json response) as [data | e]; run; [| reflexivity].
  rewrite urlsArray_normalize. run.
  rewrite <- app_assoc. reflexivity.
Qed.

(** [handleSubmit] without a usable token: both values for which [!token]
    holds, a missing item and an empty one. *)
Lemma handleSubmit_without_token API network s :
  item_truthy (localStorage s !! str "urltoken") = false ->
  call (handleSubmit API network) s
  = (Normal tt,
     {| urls := urls s; urlsLoading := urlsLoading s;
        formData := formData s; loading := false;
        userEmail := userEmail s; showModal := showModal s;
        createdUrl := createdUrl s; localStorage := localStorage s;
        navigations := navigations s ++ [str "/"];
        requests := requests s; console := console s; alerts := alerts s |}).
Proof.
  intros Htoken. run. rewrite Htoken. run. reflexivity.
Qed.

(** [handleSubmit] with a token, in closed form.  [outcome] is the parsed
    body of a success response and otherwise what is thrown inside the
    [try]. *)
Lemma handleSubmit_run API network token s :
  localStorage s !! str "urltoken" = Some token ->
  string_truthy token = true ->
  let req := shorten_request API token (formData s) in
  let outcome : result json :=
    response ← network (requests s) req;
    data ← response_json response;
    if ok response then Returns data
    else message ← failure_message data; Throws (ErrorObject message) in
  let logged :=
    console_log (str "Request body:")
      (JObject (List.map (fun kv => (fst kv, JString (snd kv)))
                  (requestBody (formData s)))) in
  call (handleSubmit API network) s
  = (Normal tt,
     match outcome with
     | Throws e =>
         {| urls := urls s; urlsLoading := urlsLoading s;
            formData := formData s; loading := false;
            userEmail := userEmail s; showModal := showModal s;
            createdUrl := createdUrl s; localStorage := localStorage s;
            navigations := navigations s;
            requests := requests s ++ [req];
            console :=
              console s
              ++ [logged; console_error (str "Error creating short URL:") e];
            alerts :=
              alerts s ++ [match e with
                           | ErrorObject message => message
                           | NonError => str "Failed to create short URL"
                           end] |}
     | Returns data =>
         set_loading false
           (snd (call (fetchUserUrls API network token)
                   {| urls := urls s; urlsLoading := urlsLoading s;
                      formData := defaultForm; loading := true;
                      userEmail := userEmail s; showModal := true;
                      createdUrl := data; localStorage := localStorage s;
                      navigations := navigations s;
                      requests := requests s ++ [req];
                      console := console s ++ [logged];
                      alerts := alerts s |}))
     end).
Proof.
  intros Htoken Htruthy req outcome logged. subst outcome logged req.
  run. rewrite Htoken. cbn [item_truthy item_string]. rewrite Htruthy. run.
  destruct (network (requests s) (shorten_request API token (formData s)))
    as [response | e]; run.
  2: { rewrite <- app_assoc. reflexivity. }
  destruct (response_json response) as [data | e]; run.
  2: { rewrite <- app_assoc. reflexivity. }
  destruct (ok response); run.
  - reflexivity.
  - destruct (failure_message data) as [message | e]; run;
      rewrite <- app_assoc; reflexivity.
Qed.

Lemma useEffect_without_token API network s :
  item_truthy (localStorage s !! str "urltoken") = false ->
  call (useEffect API network) s
  = (Normal tt,
     {| urls := urls s; urlsLoading := urlsLoading s;
        formData := formData s; loading := loading s;
        userEmail := userEmail s; showModal := showModal s;
        createdUrl := createdUrl s; localStorage := localStorage s;
        navigations := navigations s ++ [str "/"];
        requests := requests s; console := console s; alerts := alerts s |}).
Proof.
  intros Htoken. run. rewrite Htoken. run. reflexivity.
Qed.

(** A name is blank exactly when nothing is left of it after [trim]. *)
Lemma trimStart_nil (s : jsstring) :
  trimStart s = [] <-> forallb is_white_space s = true.
Proof.
  induction s as [|c s IH]; simpl; [tauto|].
  destruct (is_white_space c); simpl; [exact IH|].
  split; discriminate.
Qed.

Lemma trimStart_head (s : jsstring) (c : N) (rest : jsstring) :
  trimStart s = c :: rest -> is_white_space c = false.
Proof.
  induction s as [|x s IH]; simpl; [discriminate|].
  destruct (is_white_space x) eqn:Hx; [exact IH|].
  intros H. injection H as <- _. exact Hx.
Qed.

Lemma trim_truthy (s : jsstring) :
  string_truthy (trim s) = negb (Spec.blank s).
Proof.
  unfold trim, trimEnd, Spec.blank.
  destruct (trimStart s) as [|c rest] eqn:Hs.
  - apply trimStart_nil in Hs. rewrite Hs. reflexivity.
  - assert (Hblank : forallb is_white_space s = false).
    { destruct (forallb is_white_space s) eqn:Hall; [|reflexivity].
      apply trimStart_nil in Hall. congruence. }
    rewrite Hblank. simpl negb.
    pose proof (trimStart_head _ _ _ Hs) as Hc.
    destruct (trimStart (rev (c :: rest))) as [|x rest'] eqn:Hr.
    + apply trimStart_nil in Hr. simpl rev in Hr.
      rewrite forallb_app in Hr. simpl in Hr. rewrite Hc in Hr.
      rewrite andb_false_r in Hr. discriminate.
    + destruct (rev (x :: rest')) as [|y l] eqn:Hrev; [|reflexivity].
      apply (f_equal (@rev N)) in Hrev. rewrite rev_involutive in Hrev.
      discriminate.
Qed.

Module RefreshClaims.

(** C1.  The array [fetchUserUrls] extracts from a response body follows the
    cascade of the specification: the sequence under [urls] when there is
    one, else the body when it is a sequence, else for a keyed mapping those
    values that are objects carrying [_id], and nothing for any other shape.
    It never throws, the empty mapping gives the empty collection, a mapping
    mixing a link with a [note] keeps the link only, and that array is what
    a successful refresh installs. *)
Theorem normalization_cascade :
  (forall data, urlsArray data = Returns (Spec.normalize data)) /\
  (forall properties links,
     own_property (str "urls") properties = Some (JArray links) ->
     urlsArray (JObject properties) = Returns links) /\
  (forall links, urlsArray (JArray links) = Returns links) /\
  (forall properties,
     (forall links, own_property (str "urls") properties <> Some (JArray links)) ->
     urlsArray (JObject properties)
     = Returns (List.filter Spec.carries_identifier (List.map snd properties))) /\
  (forall data,
     (forall links, data <> JArray links) ->
     (forall properties, data <> JObject properties) ->
     urlsArray data = Returns []) /\
  urlsArray (JObject []) = Returns [] /\
  (forall id fields,
     urlsArray
       (JObject [(str "0", JObject ((str "_id", id) :: fields));
                 (str "note", JString (str "x"))])
     = Returns [JObject ((str "_id", id) :: fields)]) /\
  (forall API network token s response data,
     network (requests s) (myurls_request API token) = Returns response ->
     ok response = true ->
     response_json response = Returns data ->
     urls (snd (call (fetchUserUrls API network token) s)) = Spec.normalize data).
Proof.
  split; [| split; [| split; [| split; [| split; [| split; [| split]]]]]].
  - apply urlsArray_normalize.
  - intros properties links H. rewrite urlsArray_normalize.
    unfold Spec.normalize, Spec.decode. rewrite H. reflexivity.
  - intros links. apply urlsArray_normalize.
  - intros properties H. rewrite urlsArray_normalize.
    unfold Spec.normalize, Spec.decode.
    destruct (own_property (str "urls") properties) as [[]|] eqn:Hfield;
      try reflexivity.
    exfalso. eapply H. reflexivity.
  - intros data Harray Hobject. rewrite urlsArray_normalize.
    destruct data; try reflexivity.
    + exfalso. eapply Harray. reflexivity.
    + exfalso. eapply Hobject. reflexivity.
  - reflexivity.
  - intros id fields. rewrite urlsArray_normalize. reflexivity.
  - intros API network token s response data Hnet Hok Hjson.
    rewrite fetchUserUrls_run. rewrite Hnet.
    cbn [snd urls mbind result_bind]. rewrite Hok, Hjson. reflexivity.
Qed.

Lemma normalization_cascade_witness :
  urlsArray (JObject [(str "urls", JArray [JBool true])]) = Returns [JBool true]
  /\ urlsArray (JObject [(str "urls", JString (str "none"));
                         (str "7", JObject [(str "_id", JNull)])])
     = Returns [JObject [(str "_id", JNull)]]
  /\ urlsArray (JString (str "down")) = Returns [].
Proof.
  destruct normalization_cascade as (_ & Hfield & _ & Hmap & Hother & _).
  split; [| split].
  - apply (Hfield _ [JBool true]). reflexivity.
  - apply (Hmap [(str "urls", JString (str "none"));
                 (str "7", JObject [(str "_id", JNull)])]).
    intros links H. vm_compute in H. discriminate.
  - apply Hother; intros ? H; discriminate.
Defined.

(** C4.  A refresh never throws and always ends with the loading flag
    cleared; when the transport fails, the status is not a success or the
    body does not parse, the collection becomes empty, the error goes to the
    console and no alert is raised. *)
Theorem refresh_contained API network token s :
  let s' := snd (call (fetchUserUrls API network token) s) in
  let req := myurls_request API token in
  fst (call (fetchUserUrls API network token) s) = Normal tt /\
  urlsLoading s' = false /\
  (forall e,
     network (requests s) req = Throws e ->
     urls s' = [] /\ alerts s' = alerts s /\
     console s' = console s ++ [console_error (str "Error fetching URLs:") e]) /\
  (forall response,
     network (requests s) req = Returns response ->
     ok response = false ->
     urls s' = [] /\ alerts s' = alerts s /\
     console s'
     = console s ++ [console_error (str "Error fetching URLs:")
                       (ErrorObject (str "Failed to fetch URLs"))]) /\
  (forall response e,
     network (requests s) req = Returns response ->
     ok response = true ->
     response_json response = Throws e ->
     urls s' = [] /\ alerts s' = alerts s /\
     console s' = console s ++ [console_error (str "Error fetching URLs:") e]).
Proof.
  intros s' req. subst s' req. rewrite fetchUserUrls_run.
  cbn [fst snd urls urlsLoading alerts console].
  split; [reflexivity|]. split; [reflexivity|]. split; [| split].
  - intros e ->. repeat split.
  - intros response -> Hok. cbn [mbind result_bind]. rewrite Hok.
    repeat split.
  - intros response e -> Hok Hjson. cbn [mbind result_bind].
    rewrite Hok, Hjson. repeat split.
Qed.

Lemma refresh_contained_witness :
  urls (snd (call (fetchUserUrls (str "https://api")
                     (fun _ _ => Returns {| ok := false; response_json := Returns JNull |})
                     (str "t"))
               (set_urls [JNull] (mount ∅)))) = [].
Proof.
  pose proof (refresh_contained (str "https://api")
                (fun _ _ => Returns {| ok := false; response_json := Returns JNull |})
                (str "t") (set_urls [JNull] (mount ∅))) as H.
  cbv zeta in H. destruct H as (_ & _ & _ & Hstatus & _).
  apply (Hstatus _ eq_refl eq_refl).
Defined.

(** C10.  The identifier filter belongs to the keyed-mapping branch alone: a
    sequence under [urls], or a body that is a sequence, is installed as it
    is, whatever its elements; a keyed mapping without such a field is
    filtered. *)
Theorem sequences_installed_unfiltered API network token s response :
  network (requests s) (myurls_request API token) = Returns response ->
  ok response = true ->
  let s' := snd (call (fetchUserUrls API network token) s) in
  (forall links, response_json response = Returns (JArray links) -> urls s' = links) /\
  (forall properties links,
     response_json response = Returns (JObject properties) ->
     own_property (str "urls") properties = Some (JArray links) ->
     urls s' = links) /\
  (forall properties,
     response_json response = Returns (JObject properties) ->
     (forall links, own_property (str "urls") properties <> Some (JArray links)) ->
     urls s' = List.filter Spec.carries_identifier (List.map snd properties)).
Proof.
  intros Hnet Hok s'. subst s'. rewrite fetchUserUrls_run. rewrite Hnet.
  cbn [snd urls mbind result_bind]. rewrite Hok.
  split; [| split].
  - intros links ->. reflexivity.
  - intros properties links -> Hfield.
    unfold Spec.normalize, Spec.decode. rewrite Hfield. reflexivity.
  - intros properties -> Hfield. unfold Spec.normalize, Spec.decode.
    destruct (own_property (str "urls") properties) as [[]|]; try reflexivity.
    exfalso. eapply Hfield. reflexivity.
Qed.

Lemma sequences_installed_unfiltered_witness :
  urls (snd (call (fetchUserUrls (str "https://api")
                     (fun _ _ =>
                        Returns {| ok := true;
                                   response_json :=
                                     Returns (JArray [JString (str "x"); JObject []; JNull]) |})
                     (str "t"))
               (mount ∅)))
  = [JString (str "x"); JObject []; JNull].
Proof.
  apply (proj1 (sequences_installed_unfiltered (str "https://api")
           (fun _ _ =>
              Returns {| ok := true;
                         response_json :=
                           Returns (JArray [JString (str "x"); JObject []; JNull]) |})
           (str "t") (mount ∅) _ eq_refl eq_refl)).
  reflexivity.
Defined.

End RefreshClaims.

(** What the [try] of [handleSubmit] throws on a non-success status. *)
Lemma handleSubmit_refused API network token s response :
  localStorage s !! str "urltoken" = Some token ->
  string_truthy token = true ->
  network (requests s) (shorten_request API token (formData s)) = Returns response ->
  ok response = false ->
  exists e,
    e = match response_json response with
        | Returns data =>
            match failure_message data with
            | Returns message => ErrorObject message
            | Throws e => e
            end
        | Throws e => e
        end /\
    call (handleSubmit API network) s
    = (Normal tt,
       {| urls := urls s; urlsLoading := urlsLoading s;
          formData := formData s; loading := false;
          userEmail := userEmail s; showModal := showModal s;
          createdUrl := createdUrl s; localStorage := localStorage s;
          navigations := navigations s;
          requests := requests s ++ [shorten_request API token (formData s)];
          console :=
            console s
            ++ [console_log (str "Request body:")
                  (JObject (List.map (fun kv => (fst kv, JString (snd kv)))
                              (requestBody (formData s))));
                console_error (str "Error creating short URL:") e];
          alerts :=
            alerts s ++ [match e with
                         | ErrorObject message => message
                         | NonError => str "Failed to create short URL"
                         end] |}).
Proof.
  intros Htoken Htruthy Hnet Hok. eexists. split; [reflexivity|].
  rewrite (handleSubmit_run API network token s Htoken Htruthy).
  rewrite Hnet. cbn [mbind result_bind].
  destruct (response_json response) as [data | e]; [| reflexivity].
  rewrite Hok. cbn [mbind result_bind].
  destruct (failure_message data) as [message | e]; reflexivity.
Qed.

Module SubmitClaims.

(** C3, as the code has it.  With a token, the first request of a submission
    is the creation request; its payload carries the form's URL and validity
    period, has no [customName] at all when the form's custom name is blank
    (empty or white space only), and otherwise carries the custom name as it
    was typed, surrounding white space included. *)
Theorem customName_only_when_not_blank API network token s :
  localStorage s !! str "urltoken" = Some token ->
  string_truthy token = true ->
  let req := shorten_request API token (formData s) in
  (exists later,
     requests (snd (call (handleSubmit API network) s)) = requests s ++ req :: later) /\
  (exists payload,
     body req = Some payload /\
     own_property (str "originalUrl") payload = Some (originalUrl (formData s)) /\
     own_property (str "validityPeriod") payload = Some (validityPeriod (formData s)) /\
     (Spec.blank (customName (formData s)) = true ->
      own_property (str "customName") payload = None) /\
     (Spec.blank (customName (formData s)) = false ->
      own_property (str "customName") payload = Some (customName (formData s)))).
Proof.
  intros Htoken Htruthy req. subst req. split.
  - rewrite (handleSubmit_run API network token s Htoken Htruthy).
    cbn [snd].
    match goal with |- context [match ?o with Returns _ => _ | Throws _ => _ end] =>
      destruct o as [data | e]
    end.
    + rewrite fetchUserUrls_run. cbn [snd set_loading requests].
      eexists. rewrite <- app_assoc. reflexivity.
    + cbn [requests]. eexists. reflexivity.
  - exists (requestBody (formData s)). split; [reflexivity|].
    unfold requestBody. rewrite trim_truthy.
    destruct (Spec.blank (customName (formData s))); cbn [negb];
      (split; [reflexivity|]); (split; [reflexivity|]);
      (split; [intros H; try discriminate H; reflexivity|]);
      intros H; try discriminate H; reflexivity.
Qed.

Lemma customName_only_when_not_blank_witness :
  exists payload,
    body (shorten_request (str "https://api") (str "t")
            {| originalUrl := str "https://example.com";
               customName := [9; 32; 12288]%N;
               validityPeriod := str "1day" |}) = Some payload /\
    own_property (str "customName") payload = None.
Proof.
  set (s := set_formData
              {| originalUrl := str "https://example.com";
                 customName := [9; 32; 12288]%N;
                 validityPeriod := str "1day" |}
              (mount {[ str "urltoken" := str "t" ]})).
  assert (Htoken : localStorage s !! str "urltoken" = Some (str "t"))
    by reflexivity.
  destruct (customName_only_when_not_blank (str "https://api")
              (fun _ _ => Throws NonError) (str "t") s Htoken eq_refl)
    as (_ & payload & Hbody & _ & _ & Hblank & _).
  exists payload. split; [exact Hbody|]. apply Hblank. reflexivity.
Defined.

(** C3 as stated fails: a custom name typed with a space on either side is
    sent with both spaces, while [trim] would give the bare name. *)
Lemma padded_customName_sent_untrimmed :
  List.map body
    (requests
       (snd (call (handleSubmit (str "https://api") (fun _ _ => Throws NonError))
               (set_formData
                  {| originalUrl := str "https://example.com";
                     customName := str " mine ";
                     validityPeriod := str "7days" |}
                  (mount {[ str "urltoken" := str "t" ]})))))
  = [Some [(str "originalUrl", str "https://example.com");
           (str "validityPeriod", str "7days");
           (str "customName", str " mine ")]]
  /\ trim (str " mine ") = str "mine"
  /\ str " mine " <> trim (str " mine ").
Proof.
  split; [vm_compute; reflexivity|]. split; [reflexivity|].
  vm_compute. discriminate.
Qed.

(** C5.  A submission answered with a success status and a body that
    parses stores that body as the creation result and opens the
    confirmation, resets the form to its defaults, and issues after the
    creation request exactly one list request, with the same token.  This
    holds however the list request is answered: nothing of it is undone when
    the refresh fails, and no alert is raised. *)
Theorem submit_success API network token s response data :
  localStorage s !! str "urltoken" = Some token ->
  string_truthy token = true ->
  network (requests s) (shorten_request API token (formData s)) = Returns response ->
  ok response = true ->
  response_json response = Returns data ->
  let s' := snd (call (handleSubmit API network) s) in
  fst (call (handleSubmit API network) s) = Normal tt /\
  createdUrl s' = data /\
  showModal s' = true /\
  (truthy data = true -> confirmation_rendered s' = true) /\
  formData s'
  = {| originalUrl := []; customName := []; validityPeriod := str "7days" |} /\
  requests s'
  = requests s ++ [shorten_request API token (formData s); myurls_request API token] /\
  alerts s' = alerts s /\
  loading s' = false.
Proof.
  intros Htoken Htruthy Hnet Hok Hjson s'. subst s'.
  rewrite (handleSubmit_run API network token s Htoken Htruthy).
  rewrite Hnet. cbn [mbind result_bind]. rewrite Hjson.
  cbn [mbind result_bind]. rewrite Hok. cbn [mbind result_bind].
  rewrite fetchUserUrls_run. unfold confirmation_rendered.
  cbn [fst snd set_loading createdUrl showModal formData requests alerts loading].
  rewrite <- app_assoc.
  repeat split. intros ->. reflexivity.
Qed.

Lemma submit_success_witness :
  requests
    (snd (call (handleSubmit (str "https://api")
                  (fun earlier _ =>
                     match earlier with
                     | [] => Returns {| ok := true;
                                        response_json := Returns (JObject []) |}
                     | _ => Throws (ErrorObject (str "offline"))
                     end))
            (mount {[ str "urltoken" := str "t" ]})))
  = [shorten_request (str "https://api") (str "t") defaultForm;
     myurls_request (str "https://api") (str "t")].
Proof.
  set (s := mount {[ str "urltoken" := str "t" ]}).
  assert (Htoken : localStorage s !! str "urltoken" = Some (str "t"))
    by reflexivity.
  pose proof (submit_success (str "https://api")
                (fun earlier _ =>
                   match earlier with
                   | [] => Returns {| ok := true;
                                      response_json := Returns (JObject []) |}
                   | _ => Throws (ErrorObject (str "offline"))
                   end)
                (str "t") s _ (JObject []) Htoken eq_refl eq_refl eq_refl eq_refl)
    as H.
  cbv zeta in H. destruct H as (_ & _ & _ & _ & _ & Hrequests & _).
  exact Hrequests.
Defined.

(** C6, as the code has it.  Every submission ends normally with the loading
    flag cleared.  One answered with a non-success status raises exactly one
    alert and leaves the form, the creation result and the confirmation as
    they were.  When the body parses to a value other than null, the alert
    shows the non-empty string under [message], and the generic text when
    there is no [message] or a falsy one; when the body does not parse, the
    alert shows the message of the parse error. *)
Theorem submit_refused API network s :
  (fst (call (handleSubmit API network) s) = Normal tt /\
   loading (snd (call (handleSubmit API network) s)) = false) /\
  (forall token response,
     localStorage s !! str "urltoken" = Some token ->
     string_truthy token = true ->
     network (requests s) (shorten_request API token (formData s)) = Returns response ->
     ok response = false ->
     let s' := snd (call (handleSubmit API network) s) in
     formData s' = formData s /\
     createdUrl s' = createdUrl s /\
     showModal s' = showModal s /\
     requests s' = requests s ++ [shorten_request API token (formData s)] /\
     exists text,
       alerts s' = alerts s ++ [text] /\
       (forall data message,
          response_json response = Returns data ->
          Get data message_ = Returns (Some (JString message)) ->
          message <> [] ->
          text = message) /\
       (forall data,
          response_json response = Returns data ->
          Get data message_ = Returns None ->
          text = str "Failed to create short URL") /\
       (forall data falsy,
          response_json response = Returns data ->
          Get data message_ = Returns (Some falsy) ->
          truthy falsy = false ->
          text = str "Failed to create short URL") /\
       (forall message,
          response_json response = Throws (ErrorObject message) ->
          text = message)).
Proof.
  split.
  - destruct (item_truthy (localStorage s !! str "urltoken")) eqn:Htoken.
    + destruct (localStorage s !! str "urltoken") as [token|] eqn:Hitem;
        [| discriminate].
      rewrite (handleSubmit_run API network token s Hitem Htoken).
      cbn [fst snd].
      match goal with |- context [match ?o with Returns _ => _ | Throws _ => _ end] =>
        destruct o as [data | e]
      end; split; reflexivity.
    + rewrite handleSubmit_without_token by assumption. split; reflexivity.
  - intros token response Htoken Htruthy Hnet Hok s'. subst s'.
    destruct (handleSubmit_refused API network token s response
                Htoken Htruthy Hnet Hok) as (e & He & ->).
    cbn [snd formData createdUrl showModal requests alerts].
    repeat (split; [reflexivity|]).
    eexists. split; [reflexivity|]. subst e.
    split; [| split; [| split]].
    + intros data message -> Hget Hne. unfold failure_message.
      rewrite Hget. cbn [mbind result_bind truthy].
      destruct message; [congruence | reflexivity].
    + intros data ->  Hget. unfold failure_message.
      rewrite Hget. reflexivity.
    + intros data falsy -> Hget Hfalsy. unfold failure_message.
      rewrite Hget. cbn [mbind result_bind]. rewrite Hfalsy. reflexivity.
    + intros message ->. reflexivity.
Qed.

Lemma submit_refused_witness :
  alerts
    (snd (call (handleSubmit (str "https://api")
                  (fun _ _ =>
                     Returns {| ok := false;
                                response_json :=
                                  Returns (JObject [(str "message",
                                                     JString (str "Name taken"))]) |}))
            (mount {[ str "urltoken" := str "t" ]})))
  = [str "Name taken"].
Proof.
  set (s := mount {[ str "urltoken" := str "t" ]}).
  assert (Htoken : localStorage s !! str "urltoken" = Some (str "t"))
    by reflexivity.
  destruct (proj2 (submit_refused (str "https://api")
              (fun _ _ =>
                 Returns {| ok := false;
                            response_json :=
                              Returns (JObject [(str "message",
                                                 JString (str "Name taken"))]) |})
              s) (str "t") _ Htoken eq_refl eq_refl eq_refl)
    as (_ & _ & _ & _ & text & Halerts & Hmessage & _).
  rewrite Halerts.
  rewrite (Hmessage _ (str "Name taken") eq_refl eq_refl ltac:(discriminate)).
  reflexivity.
Defined.

(** C6 as stated fails: a non-success answer whose body is not JSON has no
    [message], yet the alert shows the parse error and not the generic
    text. *)
Lemma unparsed_refusal_shows_parse_error :
  alerts
    (snd (call (handleSubmit (str "https://api")
                  (fun _ _ =>
                     Returns {| ok := false;
                                response_json :=
                                  Throws (ErrorObject
                                            (str "Unexpected token < in JSON at position 0")) |}))
            (mount {[ str "urltoken" := str "t" ]})))
  = [str "Unexpected token < in JSON at position 0"]
  /\ str "Unexpected token < in JSON at position 0" <> str "Failed to create short URL".
Proof.
  split; [vm_compute; reflexivity|]. vm_compute. discriminate.
Qed.

End SubmitClaims.

Module SessionClaims.

(** C8.  Without a persisted token (missing, or empty) nothing is requested:
    the mount effect only navigates to the entry point, and a submission
    navigates there and ends with the loading flag cleared, both leaving the
    list of requests, the form and the collection as they were. *)
Theorem absent_token_no_network API network s :
  item_truthy (localStorage s !! str "urltoken") = false ->
  let mounted := call (useEffect API network) s in
  let submitted := call (handleSubmit API network) s in
  (fst mounted = Normal tt /\
   requests (snd mounted) = requests s /\
   navigations (snd mounted) = navigations s ++ [str "/"] /\
   urls (snd mounted) = urls s /\
   userEmail (snd mounted) = userEmail s) /\
  (fst submitted = Normal tt /\
   requests (snd submitted) = requests s /\
   navigations (snd submitted) = navigations s ++ [str "/"] /\
   urls (snd submitted) = urls s /\
   formData (snd submitted) = formData s /\
   createdUrl (snd submitted) = createdUrl s /\
   alerts (snd submitted) = alerts s /\
   loading (snd submitted) = false).
Proof.
  intros Htoken mounted submitted. subst mounted submitted.
  rewrite useEffect_without_token, handleSubmit_without_token by assumption.
  cbn [fst snd]. repeat split.
Qed.

Lemma absent_token_no_network_witness :
  requests (snd (call (useEffect (str "https://api")
                         (fun _ _ => Returns {| ok := true;
                                                response_json := Returns (JArray []) |}))
                   (mount ∅))) = []
  /\ requests (snd (call (handleSubmit (str "https://api")
                            (fun _ _ => Returns {| ok := true;
                                                   response_json := Returns (JArray []) |}))
                      (mount ∅))) = [].
Proof.
  set (s := mount ∅).
  assert (Htoken : item_truthy (localStorage s !! str "urltoken") = false)
    by reflexivity.
  pose proof (absent_token_no_network (str "https://api")
                (fun _ _ => Returns {| ok := true;
                                       response_json := Returns (JArray []) |})
                s Htoken) as H.
  cbv zeta in H. destruct H as ((_ & Hmount & _) & (_ & Hsubmit & _)).
  split; [exact Hmount | exact Hsubmit].
Defined.

End SessionClaims.

(** * Further properties of the code *)

Module ExpiryMore.
Import Expiry ExpiryFacts.

Lemma left_suffix_not_Expired (l : jsstring) :
  l ++ str " left" <> str "Expired".
Proof.
  intros H. apply (f_equal (@rev N)) in H.
  rewrite rev_app_distr in H.
  change (rev (str " left")) with [116; 102; 101; 108; 32]%N in H.
  change (rev (str "Expired")) with [100; 101; 114; 105; 112; 120; 69]%N in H.
  simpl in H. discriminate.
Qed.

(** X1.  The label is "Expired" exactly for a valid expiry date strictly in
    the past.  An expiry date that does not parse is never expired: at every
    time it is labelled "NaN days left" in the colour of the normal tier. *)
Theorem expired_label_iff (expiry : Date) (now : Z) :
  (status (getValidityStatus expiry now) = str "Expired"
   <-> exists e, expiry = TimeValue e /\ now > e) /\
  (expiry = InvalidDate ->
   status (getValidityStatus expiry now) = str "NaN days left" /\
   urgency (getValidityStatus expiry now) = Some normal).
Proof.
  split.
  - destruct expiry as [e |].
    + destruct (Z.le_gt_cases now e) as [Hle | Hgt].
      * rewrite (getValidityStatus_valid _ _ Hle). cbn [status]. split.
        -- intros H. exfalso.
           rewrite !app_assoc in H. exact (left_suffix_not_Expired _ H).
        -- intros (e' & He & Hgt). injection He as <-. lia.
      * rewrite getValidityStatus_expired by lia. split; [| reflexivity].
        intros _. exists e. split; [reflexivity | lia].
    + split.
      * intros H. vm_compute in H. discriminate.
      * intros (e & He & _). discriminate.
  - intros ->. split; reflexivity.
Qed.

Lemma expired_label_iff_witness :
  status (getValidityStatus InvalidDate 1700000000000) = str "NaN days left" /\
  urgency (getValidityStatus InvalidDate 1700000000000) = Some normal.
Proof. apply (proj2 (expired_label_iff InvalidDate 1700000000000)). reflexivity. Defined.

(** X2.  The tier in terms of the remaining time, for a valid expiry date:
    expired when the date is past, urgent when at most two days (172800000
    ms) remain, the instant of expiry included, and normal when more than two
    days remain.  One of the three tiers always applies. *)
Theorem tier_by_remaining_time (expiry now : Z) :
  let tier := urgency (getValidityStatus (TimeValue expiry) now) in
  (tier = Some expired <-> expiry < now) /\
  (tier = Some urgent <-> now <= expiry <= now + 172800000) /\
  (tier = Some normal <-> now + 172800000 < expiry).
Proof.
  intros tier. subst tier.
  destruct (Z.le_gt_cases now expiry) as [Hle | Hgt].
  - rewrite (getValidityStatus_valid _ _ Hle). unfold urgency. cbn [color].
    pose proof (ceil_div_bounds (expiry - now) MS_PER_DAY ltac:(reflexivity)) as Hd.
    rewrite MS_PER_DAY_value in Hd.
    destruct (Z.leb_spec (- ((- (expiry - now)) / MS_PER_DAY)) 2) as [H2 | H2];
      rewrite MS_PER_DAY_value in H2;
      (split; [| split]); (split; [intros H; try (vm_compute in H; discriminate H) | intros H]);
      try lia; try reflexivity.
  - rewrite getValidityStatus_expired by lia.
    (split; [| split]); (split; [intros H; try (vm_compute in H; discriminate H) | intros H]);
      try lia; try reflexivity.
Qed.

(** X3.  On a date not yet passed the day count never grows as time goes by,
    and a date a whole number of days later counts exactly that many days
    more. *)
Theorem day_count_arithmetic (expiry now : Z) :
  now <= expiry ->
  exists d,
    daysLeft (TimeValue expiry) now = Int d /\
    (forall later, now <= later -> later <= expiry ->
       exists d', daysLeft (TimeValue expiry) later = Int d' /\ 0 <= d' <= d) /\
    (forall k, 0 <= k ->
       daysLeft (TimeValue (expiry + k * 86400000)) now = Int (d + k)).
Proof.
  intros Hle. eexists. split; [apply daysLeft_valid|]. split.
  - intros later H1 H2. eexists. split; [apply daysLeft_valid|].
    pose proof (ceil_div_bounds (expiry - now) MS_PER_DAY ltac:(reflexivity)) as Hd.
    pose proof (ceil_div_bounds (expiry - later) MS_PER_DAY ltac:(reflexivity)) as Hd'.
    rewrite MS_PER_DAY_value in *. lia.
  - intros k Hk. rewrite daysLeft_valid. f_equal.
    rewrite <- MS_PER_DAY_value.
    replace (- (expiry + k * MS_PER_DAY - now))
      with (- (expiry - now) + (- k) * MS_PER_DAY) by ring.
    rewrite Z.div_add by discriminate. ring.
Qed.

Lemma day_count_arithmetic_witness :
  exists d,
    daysLeft (TimeValue 90000000) 0 = Int d /\
    (forall later, 0 <= later -> later <= 90000000 ->
       exists d', daysLeft (TimeValue 90000000) later = Int d' /\ 0 <= d' <= d) /\
    (forall k, 0 <= k ->
       daysLeft (TimeValue (90000000 + k * 86400000)) 0 = Int (d + k)).
Proof. apply (day_count_arithmetic 90000000 0). lia. Defined.

End ExpiryMore.

Lemma useEffect_with_token API network token s :
  localStorage s !! str "urltoken" = Some token ->
  string_truthy token = true ->
  call (useEffect API network) s
  = (Normal tt,
     snd (call (fetchUserUrls API network token)
            (set_userEmail (item_or (localStorage s !! str "userEmail") []) s))).
Proof.
  intros Htoken Htruthy. run. rewrite Htoken.
  cbn [item_truthy item_string]. rewrite Htruthy. run. reflexivity.
Qed.

Module RefreshMore.

(** X4.  A refresh hands exactly one request to [fetch] and, however it is
    answered (a 401 included), never navigates, never raises an alert and
    leaves the stored session, the form, the submission flag and the
    confirmation alone.  What it installs does not depend on the collection
    held before: nothing of it is merged. *)
Theorem refresh_frame API network token s :
  let s' := snd (call (fetchUserUrls API network token) s) in
  requests s' = requests s ++ [myurls_request API token] /\
  navigations s' = navigations s /\
  alerts s' = alerts s /\
  localStorage s' = localStorage s /\
  formData s' = formData s /\
  loading s' = loading s /\
  userEmail s' = userEmail s /\
  showModal s' = showModal s /\
  createdUrl s' = createdUrl s /\
  (forall held flag,
     urls (snd (call (fetchUserUrls API network token)
                  (set_urls held (set_urlsLoading flag s))))
     = urls s').
Proof.
  intros s'. subst s'. rewrite fetchUserUrls_run. cbn [snd].
  repeat (split; [reflexivity|]).
  intros held flag. rewrite fetchUserUrls_run. reflexivity.
Qed.

(** X5.  Refreshing twice in a row, when the service answers the second list
    request as it answered the first, leaves the same collection and the same
    pane as refreshing once. *)
Theorem refresh_idempotent API network token s :
  network (requests s ++ [myurls_request API token]) (myurls_request API token)
  = network (requests s) (myurls_request API token) ->
  let once := snd (call (fetchUserUrls API network token) s) in
  let twice := snd (call (fetchUserUrls API network token) once) in
  urls twice = urls once /\
  urlsLoading twice = urlsLoading once /\
  list_pane_of twice = list_pane_of once.
Proof.
  intros Hsame once twice. subst twice once.
  rewrite !fetchUserUrls_run. unfold list_pane_of.
  cbn [snd urls urlsLoading requests]. rewrite Hsame.
  repeat split.
Qed.

Lemma refresh_idempotent_witness :
  urls (snd (call (fetchUserUrls (str "https://api")
                     (fun _ _ => Returns {| ok := true;
                                            response_json := Returns (JArray [JNull]) |})
                     (str "t"))
               (snd (call (fetchUserUrls (str "https://api")
                             (fun _ _ => Returns {| ok := true;
                                                    response_json := Returns (JArray [JNull]) |})
                             (str "t"))
                       (mount ∅)))))
  = urls (snd (call (fetchUserUrls (str "https://api")
                       (fun _ _ => Returns {| ok := true;
                                              response_json := Returns (JArray [JNull]) |})
                       (str "t"))
                 (mount ∅))).
Proof.
  apply (refresh_idempotent (str "https://api")
           (fun _ _ => Returns {| ok := true;
                                  response_json := Returns (JArray [JNull]) |})
           (str "t") (mount ∅) eq_refl).
Defined.

(** X6.  After a refresh the list pane is never left at "Loading".  The
    "No URLs yet" branch is taken when the request fails, the status is not
    a success or the body does not parse, and after a parsed success exactly
    when no link is extracted: a failed refresh is displayed like an empty
    account. *)
Theorem pane_after_refresh API network token s :
  let s' := snd (call (fetchUserUrls API network token) s) in
  let req := myurls_request API token in
  list_pane_of s' <> Loading /\
  (forall e, network (requests s) req = Throws e -> list_pane_of s' = NoUrlsYet) /\
  (forall response,
     network (requests s) req = Returns response ->
     (ok response = false -> list_pane_of s' = NoUrlsYet) /\
     (forall e, ok response = true -> response_json response = Throws e ->
        list_pane_of s' = NoUrlsYet) /\
     (forall data, ok response = true -> response_json response = Returns data ->
        (list_pane_of s' = NoUrlsYet <-> Spec.normalize data = []))).
Proof.
  intros s' req. subst s' req. rewrite fetchUserUrls_run.
  unfold list_pane_of. cbn [snd urls urlsLoading].
  split; [| split].
  - match goal with |- context [length ?l] => destruct l end; discriminate.
  - intros e ->. reflexivity.
  - intros response ->. cbn [mbind result_bind]. split; [| split].
    + intros ->. reflexivity.
    + intros e -> ->. reflexivity.
    + intros data -> ->. destruct (Spec.normalize data); split;
        try reflexivity; discriminate.
Qed.

Lemma pane_after_refresh_witness :
  list_pane_of
    (snd (call (fetchUserUrls (str "https://api")
                  (fun _ _ => Throws (ErrorObject (str "Failed to fetch")))
                  (str "t"))
            (set_urls [JObject [(str "_id", JString (str "a"))]] (mount ∅))))
  = NoUrlsYet.
Proof.
  pose proof (pane_after_refresh (str "https://api")
                (fun _ _ => Throws (ErrorObject (str "Failed to fetch")))
                (str "t")
                (set_urls [JObject [(str "_id", JString (str "a"))]] (mount ∅))) as H.
  cbv zeta in H. destruct H as (_ & Hfail & _).
  apply (Hfail _ eq_refl).
Defined.

(** X7.  With a stored token the mount effect shows the stored e-mail (the
    empty string when none is stored), issues exactly one list request,
    carrying that token, never navigates, and ends with the loading flag
    cleared. *)
Theorem mount_with_token API network token s :
  localStorage s !! str "urltoken" = Some token ->
  string_truthy token = true ->
  let s' := snd (call (useEffect API network) s) in
  fst (call (useEffect API network) s) = Normal tt /\
  userEmail s' = item_or (localStorage s !! str "userEmail") [] /\
  requests s' = requests s ++ [myurls_request API token] /\
  navigations s' = navigations s /\
  urlsLoading s' = false /\
  alerts s' = alerts s /\
  localStorage s' = localStorage s /\
  urls s' = urls (snd (call (fetchUserUrls API network token) s)).
Proof.
  intros Htoken Htruthy s'. subst s'.
  rewrite (useEffect_with_token API network token s Htoken Htruthy).
  rewrite !fetchUserUrls_run. cbn [fst snd]. repeat split.
Qed.

Lemma mount_with_token_witness :
  requests (snd (call (useEffect (str "https://api")
                         (fun _ _ => Throws NonError))
                   (mount {[ str "urltoken" := str "t" ]})))
  = [myurls_request (str "https://api") (str "t")].
Proof.
  set (s := mount {[ str "urltoken" := str "t" ]}).
  assert (Htoken : localStorage s !! str "urltoken" = Some (str "t"))
    by reflexivity.
  pose proof (mount_with_token (str "https://api") (fun _ _ => Throws NonError)
                (str "t") s Htoken eq_refl) as H.
  cbv zeta in H. destruct H as (_ & _ & Hrequests & _).
  exact Hrequests.
Defined.

End RefreshMore.

Module SubmitMore.

(** X8.  When the creation request fails in transport, or its body does not
    parse whatever the status, the user gets one alert with the message of
    that error (the generic text if what was thrown is no [Error]); the form,
    the confirmation and the collection stay as they were, no list request
    follows, and the submission flag is cleared. *)
Theorem submit_failure_alert API network token s e :
  localStorage s !! str "urltoken" = Some token ->
  string_truthy token = true ->
  (network (requests s) (shorten_request API token (formData s)) = Throws e \/
   exists response,
     network (requests s) (shorten_request API token (formData s)) = Returns response /\
     response_json response = Throws e) ->
  let s' := snd (call (handleSubmit API network) s) in
  alerts s'
  = alerts s ++ [match e with
                 | ErrorObject message => message
                 | NonError => str "Failed to create short URL"
                 end] /\
  requests s' = requests s ++ [shorten_request API token (formData s)] /\
  formData s' = formData s /\
  showModal s' = showModal s /\
  createdUrl s' = createdUrl s /\
  urls s' = urls s /\
  loading s' = false.
Proof.
  intros Htoken Htruthy Hfail s'. subst s'.
  rewrite (handleSubmit_run API network token s Htoken Htruthy).
  destruct Hfail as [Hnet | (response & Hnet & Hjson)]; rewrite Hnet;
    cbn [mbind result_bind]; [| rewrite Hjson]; cbn [snd]; repeat split.
Qed.

Lemma submit_failure_alert_witness :
  alerts (snd (call (handleSubmit (str "https://api")
                       (fun _ _ => Throws (ErrorObject (str "Failed to fetch"))))
                 (mount {[ str "urltoken" := str "t" ]})))
  = [str "Failed to fetch"].
Proof.
  set (s := mount {[ str "urltoken" := str "t" ]}).
  assert (Htoken : localStorage s !! str "urltoken" = Some (str "t"))
    by reflexivity.
  pose proof (submit_failure_alert (str "https://api")
                (fun _ _ => Throws (ErrorObject (str "Failed to fetch")))
                (str "t") s (ErrorObject (str "Failed to fetch"))
                Htoken eq_refl (or_introl eq_refl)) as H.
  cbv zeta in H. destruct H as (Halerts & _). exact Halerts.
Defined.

(** X9.  A submission with a token ends in exactly one of two ways.  Either
    the service answered with a success status and a body that parses: the
    body is stored, the confirmation flag is set, the form is reset, a list
    request follows and no alert is raised.  Or exactly one alert is raised:
    the form, the confirmation and the collection are as before and no list
    request follows.  Either way the creation request is the only write, the
    submission flag is cleared, nothing is navigated to and the stored
    session is untouched. *)
Theorem submit_outcomes API network token s :
  localStorage s !! str "urltoken" = Some token ->
  string_truthy token = true ->
  let s' := snd (call (handleSubmit API network) s) in
  let req := shorten_request API token (formData s) in
  ((exists response data,
      network (requests s) req = Returns response /\
      ok response = true /\
      response_json response = Returns data /\
      createdUrl s' = data /\ showModal s' = true /\
      formData s' = defaultForm /\
      alerts s' = alerts s /\
      requests s' = requests s ++ [req; myurls_request API token])
   \/
   (exists text,
      alerts s' = alerts s ++ [text] /\
      formData s' = formData s /\
      showModal s' = showModal s /\ createdUrl s' = createdUrl s /\
      urls s' = urls s /\ urlsLoading s' = urlsLoading s /\
      requests s' = requests s ++ [req])) /\
  loading s' = false /\
  navigations s' = navigations s /\
  localStorage s' = localStorage s /\
  userEmail s' = userEmail s.
Proof.
  intros Htoken Htruthy s' req. subst s' req.
  rewrite (handleSubmit_run API network token s Htoken Htruthy).
  destruct (network (requests s) (shorten_request API token (formData s)))
    as [response | e] eqn:Hnet; cbn [mbind result_bind].
  2: { cbn [snd]. split; [right; eexists; repeat split | repeat split]. }
  destruct (response_json response) as [data | e] eqn:Hjson;
    cbn [mbind result_bind].
  2: { cbn [snd]. split; [right; eexists; repeat split | repeat split]. }
  destruct (ok response) eqn:Hok; cbn [mbind result_bind].
  - rewrite fetchUserUrls_run.
    cbn [snd set_loading createdUrl showModal formData requests alerts loading
         navigations localStorage userEmail].
    rewrite <- app_assoc. split; [left | repeat split].
    exists response, data. repeat split; assumption.
  - destruct (failure_message data) as [message | e];
      cbn [snd]; (split; [right; eexists; repeat split | repeat split]).
Qed.

Lemma submit_outcomes_witness :
  loading (snd (call (handleSubmit (str "https://api")
                        (fun _ _ => Returns {| ok := true;
                                               response_json := Returns JNull |}))
                  (mount {[ str "urltoken" := str "t" ]})))
  = false.
Proof.
  set (s := mount {[ str "urltoken" := str "t" ]}).
  assert (Htoken : localStorage s !! str "urltoken" = Some (str "t"))
    by reflexivity.
  pose proof (submit_outcomes (str "https://api")
                (fun _ _ => Returns {| ok := true; response_json := Returns JNull |})
                (str "t") s Htoken eq_refl) as H.
  cbv zeta in H. destruct H as (_ & Hloading & _). exact Hloading.
Defined.

(** X11.  A success answer whose body is falsy (null, false, zero or the
    empty string) sets the confirmation flag but renders no confirmation;
    the form is reset and the list request is issued all the same. *)
Theorem falsy_creation_result API network token s response data :
  localStorage s !! str "urltoken" = Some token ->
  string_truthy token = true ->
  network (requests s) (shorten_request API token (formData s)) = Returns response ->
  ok response = true ->
  response_json response = Returns data ->
  truthy data = false ->
  let s' := snd (call (handleSubmit API network) s) in
  showModal s' = true /\
  confirmation_rendered s' = false /\
  formData s' = defaultForm /\
  alerts s' = alerts s /\
  requests s'
  = requests s ++ [shorten_request API token (formData s); myurls_request API token].
Proof.
  intros Htoken Htruthy Hnet Hok Hjson Hfalsy s'. subst s'.
  rewrite (handleSubmit_run API network token s Htoken Htruthy).
  rewrite Hnet. cbn [mbind result_bind]. rewrite Hjson.
  cbn [mbind result_bind]. rewrite Hok. cbn [mbind result_bind].
  rewrite fetchUserUrls_run. unfold confirmation_rendered.
  cbn [snd set_loading createdUrl showModal formData requests alerts].
  rewrite Hfalsy, <- app_assoc. repeat split.
Qed.

Lemma falsy_creation_result_witness :
  confirmation_rendered
    (snd (call (handleSubmit (str "https://api")
                  (fun _ _ => Returns {| ok := true;
                                         response_json := Returns (JString []) |}))
            (mount {[ str "urltoken" := str "t" ]})))
  = false.
Proof.
  set (s := mount {[ str "urltoken" := str "t" ]}).
  assert (Htoken : localStorage s !! str "urltoken" = Some (str "t"))
    by reflexivity.
  pose proof (falsy_creation_result (str "https://api")
                (fun _ _ => Returns {| ok := true;
                                       response_json := Returns (JString []) |})
                (str "t") s _ (JString []) Htoken eq_refl eq_refl eq_refl eq_refl
                eq_refl) as H.
  cbv zeta in H. destruct H as (_ & Hrendered & _). exact Hrendered.
Defined.

End SubmitMore.

Lemma handleInputChange_run name value s :
  call (handleInputChange name value) s
  = (Normal tt,
     {| urls := urls s; urlsLoading := urlsLoading s;
        formData := spread_with (formData s) name value;
        loading := loading s; userEmail := userEmail s;
        showModal := showModal s; createdUrl := createdUrl s;
        localStorage := localStorage s; navigations := navigations s;
        requests := requests s;
        console :=
          console s
          ++ [console_log (str "Input changed:")
                (JArray [JString (input_name_string name); JString value])];
        alerts := alerts s |}).
Proof. reflexivity. Qed.

Module FormMore.


(** X13.  Of two changes to the same field the later one stands, and changes
    to different fields give the same form in either order. *)
Theorem input_changes_compose name1 value1 name2 value2 s :
  let change name value s := snd (call (handleInputChange name value) s) in
  (name1 = name2 ->
   formData (change name2 value2 (change name1 value1 s))
   = formData (change name2 value2 s)) /\
  (name1 <> name2 ->
   formData (change name2 value2 (change name1 value1 s))
   = formData (change name1 value1 (change name2 value2 s))).
Proof.
  intros change. subst change. cbv beta. rewrite !handleInputChange_run.
  cbn [snd formData]. split.
  - intros <-. destruct name1; reflexivity.
  - intros Hne. destruct name1, name2; try reflexivity; contradiction.
Qed.

Lemma input_changes_compose_witness :
  formData
    (snd (call (handleInputChange customName_ (str "b"))
            (snd (call (handleInputChange customName_ (str "a")) (mount ∅)))))
  = formData (snd (call (handleInputChange customName_ (str "b")) (mount ∅))).
Proof.
  apply (proj1 (input_changes_compose customName_ (str "a") customName_ (str "b")
                  (mount ∅))).
  reflexivity.
Defined.

(** X14.  What is typed is what is sent: after the three controls have been
    set, a submission with a token first hands [fetch] the creation request
    built from exactly those three values and that token. *)
Theorem typed_values_are_submitted API network token s link name period :
  localStorage s !! str "urltoken" = Some token ->
  string_truthy token = true ->
  let typed :=
    snd (call (handleInputChange validityPeriod_ period)
           (snd (call (handleInputChange customName_ name)
                   (snd (call (handleInputChange originalUrl_ link) s))))) in
  exists later,
    requests (snd (call (handleSubmit API network) typed))
    = requests s
      ++ shorten_request API token
           {| originalUrl := link; customName := name; validityPeriod := period |}
      :: later.
Proof.
  intros Htoken Htruthy typed. subst typed.
  rewrite !handleInputChange_run. cbn [snd formData spread_with].
  match goal with |- context [call (handleSubmit API network) ?t] =>
    rewrite (handleSubmit_run API network token t Htoken Htruthy)
  end.
  cbn [snd formData requests].
  match goal with |- context [match ?o with Returns _ => _ | Throws _ => _ end] =>
    destruct o as [data | e]
  end.
  - rewrite fetchUserUrls_run. cbn [snd set_loading requests].
    eexists. rewrite <- app_assoc. reflexivity.
  - cbn [requests]. eexists. reflexivity.
Qed.

Lemma typed_values_are_submitted_witness :
  exists later,
    requests
      (snd (call (handleSubmit (str "https://api") (fun _ _ => Throws NonError))
              (snd (call (handleInputChange validityPeriod_ (str "1month"))
                      (snd (call (handleInputChange customName_ (str "mine"))
                              (snd (call (handleInputChange originalUrl_
                                            (str "https://example.com"))
                                      (mount {[ str "urltoken" := str "t" ]})))))))))
    = requests (mount {[ str "urltoken" := str "t" ]})
      ++ shorten_request (str "https://api") (str "t")
           {| originalUrl := str "https://example.com";
              customName := str "mine";
              validityPeriod := str "1month" |}
      :: later.
Proof.
  set (s := mount {[ str "urltoken" := str "t" ]}).
  assert (Htoken : localStorage s !! str "urltoken" = Some (str "t"))
    by reflexivity.
  exact (typed_values_are_submitted (str "https://api") (fun _ _ => Throws NonError)
           (str "t") s (str "https://example.com") (str "mine") (str "1month")
           Htoken eq_refl).
Defined.

End FormMore.

Lemma handleLogout_run s :
  call handleLogout s
  = (Normal tt,
     {| urls := urls s; urlsLoading := urlsLoading s; formData := formData s;
        loading := loading s; userEmail := userEmail s;
        showModal := showModal s; createdUrl := createdUrl s;
        localStorage :=
          delete (str "isAuthenticated")
            (delete (str "userEmail") (delete (str "urltoken") (localStorage s)));
        navigations := navigations s ++ [str "/"];
        requests := requests s; console := console s; alerts := alerts s |}).
Proof. reflexivity. Qed.

Lemma logout_removes_token (m : gmap jsstring jsstring) :
  delete (str "isAuthenticated")
    (delete (str "userEmail") (delete (str "urltoken") m))
  !! str "urltoken" = None.
Proof.
  rewrite lookup_delete_ne by discriminate.
  rewrite lookup_delete_ne by discriminate.
  apply lookup_delete_eq.
Qed.

Module SessionMore.

(** X15.  Logging out removes the token, the e-mail and the authentication
    flag from the store and nothing else, navigates to the entry point and
    sends nothing; the collection, the shown e-mail and the creation result
    held by the component are not cleared. *)
Theorem logout_clears_session s :
  let s' := snd (call handleLogout s) in
  localStorage s' !! str "urltoken" = None /\
  localStorage s' !! str "userEmail" = None /\
  localStorage s' !! str "isAuthenticated" = None /\
  (forall key,
     key <> str "urltoken" -> key <> str "userEmail" ->
     key <> str "isAuthenticated" ->
     localStorage s' !! key = localStorage s !! key) /\
  navigations s' = navigations s ++ [str "/"] /\
  requests s' = requests s /\
  urls s' = urls s /\
  userEmail s' = userEmail s /\
  createdUrl s' = createdUrl s /\
  formData s' = formData s.
Proof.
  intros s'. subst s'. rewrite handleLogout_run.
  cbn [snd localStorage navigations requests urls userEmail createdUrl formData].
  split; [apply logout_removes_token|].
  split.
  { rewrite lookup_delete_ne by discriminate. apply lookup_delete_eq. }
  split; [apply lookup_delete_eq|].
  split; [| repeat split].
  intros key H1 H2 H3.
  rewrite !lookup_delete_ne by congruence. reflexivity.
Qed.

(** X16.  Once logged out, whatever the store held before, neither a mount
    nor a submission sends a request: each only navigates to the entry
    point. *)
Theorem no_request_after_logout API network s :
  let out := snd (call handleLogout s) in
  requests (snd (call (useEffect API network) out)) = requests s /\
  navigations (snd (call (useEffect API network) out))
  = navigations s ++ [str "/"; str "/"] /\
  requests (snd (call (handleSubmit API network) out)) = requests s /\
  navigations (snd (call (handleSubmit API network) out))
  = navigations s ++ [str "/"; str "/"] /\
  alerts (snd (call (handleSubmit API network) out)) = alerts s.
Proof.
  intros out. subst out. rewrite handleLogout_run. cbn [snd].
  rewrite useEffect_without_token, handleSubmit_without_token;
    cbn [localStorage]; try (rewrite logout_removes_token; reflexivity).
  cbn [snd requests navigations alerts]. rewrite <- !app_assoc.
  repeat split.
Qed.

(** X17.  Closing the confirmation after a successful submission hides it
    and drops the stored creation result, while the reset form, the
    refreshed collection and the requests made stay as the submission left
    them; closing once more changes nothing. *)
Theorem close_after_creation API network token s response data :
  localStorage s !! str "urltoken" = Some token ->
  string_truthy token = true ->
  network (requests s) (shorten_request API token (formData s)) = Returns response ->
  ok response = true ->
  response_json response = Returns data ->
  let created := snd (call (handleSubmit API network) s) in
  let closed := snd (call closeModal created) in
  confirmation_rendered closed = false /\
  showModal closed = false /\
  createdUrl closed = JNull /\
  formData closed = defaultForm /\
  urls closed = urls created /\
  requests closed
  = requests s ++ [shorten_request API token (formData s); myurls_request API token] /\
  snd (call closeModal closed) = closed.
Proof.
  intros Htoken Htruthy Hnet Hok Hjson created closed. subst closed created.
  rewrite (handleSubmit_run API network token s Htoken Htruthy).
  rewrite Hnet. cbn [mbind result_bind]. rewrite Hjson.
  cbn [mbind result_bind]. rewrite Hok. cbn [mbind result_bind].
  rewrite fetchUserUrls_run. cbn [snd set_loading].
  unfold confirmation_rendered. run.
  rewrite <- app_assoc. repeat split.
Qed.

Lemma close_after_creation_witness :
  confirmation_rendered
    (snd (call closeModal
            (snd (call (handleSubmit (str "https://api")
                          (fun _ _ => Returns {| ok := true;
                                                 response_json := Returns (JObject []) |}))
                    (mount {[ str "urltoken" := str "t" ]})))))
  = false.
Proof.
  set (s := mount {[ str "urltoken" := str "t" ]}).
  assert (Htoken : localStorage s !! str "urltoken" = Some (str "t"))
    by reflexivity.
  pose proof (close_after_creation (str "https://api")
                (fun _ _ => Returns {| ok := true;
                                       response_json := Returns (JObject []) |})
                (str "t") s _ (JObject []) Htoken eq_refl eq_refl eq_refl eq_refl)
    as H.
  cbv zeta in H. destruct H as (Hrendered & _). exact Hrendered.
Defined.

End SessionMore.

Module EdgeMore.

(** X18.  On a freshly mounted component the list pane leaves "Loading"
    exactly when a token is stored: without one the mount effect returns
    before any refresh and the loading flag is never cleared. *)
Theorem loading_pane_left_iff_token API network storage :
  let s' := snd (call (useEffect API network) (mount storage)) in
  (list_pane_of s' = Loading <-> item_truthy (storage !! str "urltoken") = false) /\
  (item_truthy (storage !! str "urltoken") = false -> userEmail s' = [] /\ urls s' = []).
Proof.
  intros s'. subst s'.
  destruct (item_truthy (storage !! str "urltoken")) eqn:Htoken.
  - destruct (storage !! str "urltoken") as [token|] eqn:Hitem; [| discriminate].
    rewrite (useEffect_with_token API network token (mount storage) Hitem Htoken).
    rewrite fetchUserUrls_run. unfold list_pane_of. cbn [snd urls urlsLoading].
    split; [| discriminate]. split; [| discriminate].
    match goal with |- context [length ?l] => destruct l end; discriminate.
  - rewrite useEffect_without_token by exact Htoken.
    split; [split; reflexivity | intros _; split; reflexivity].
Qed.

Lemma loading_pane_left_iff_token_witness :
  userEmail (snd (call (useEffect (str "https://api") (fun _ _ => Throws NonError))
                    (mount {[ str "userEmail" := str "a@b.c" ]}))) = [].
Proof.
  assert (Htoken : item_truthy
                     (({[ str "userEmail" := str "a@b.c" ]} : gmap jsstring jsstring)
                      !! str "urltoken") = false) by reflexivity.
  pose proof (loading_pane_left_iff_token (str "https://api")
                (fun _ _ => Throws NonError)
                {[ str "userEmail" := str "a@b.c" ]}) as H.
  cbv zeta in H. destruct H as (_ & Hmail). apply (Hmail Htoken).
Defined.

(** X19.  A refusal whose [message] is truthy but no string is shown as the
    [Error] constructor converts it: [true] as "true", a number as its
    digits, a parsed object as "[object Object]", and in general as the
    string conversion of the value; when that conversion throws, the alert
    shows the message of what it threw. *)
Theorem refusal_message_conversion API network token s response data m :
  localStorage s !! str "urltoken" = Some token ->
  string_truthy token = true ->
  network (requests s) (shorten_request API token (formData s)) = Returns response ->
  ok response = false ->
  response_json response = Returns data ->
  Get data message_ = Returns (Some m) ->
  truthy m = true ->
  let s' := snd (call (handleSubmit API network) s) in
  (forall text, ToString m = Returns text -> alerts s' = alerts s ++ [text]) /\
  (forall message, ToString m = Throws (ErrorObject message) ->
     alerts s' = alerts s ++ [message]) /\
  (m = JBool true -> alerts s' = alerts s ++ [str "true"]) /\
  (forall n, m = JNumber n -> alerts s' = alerts s ++ [number_text n]) /\
  (forall properties,
     m = JObject properties ->
     own_property (str "toString") properties = None ->
     alerts s' = alerts s ++ [str "[object Object]"]).
Proof.
  intros Htoken Htruthy Hnet Hok Hjson Hget Hm s'. subst s'.
  destruct (handleSubmit_refused API network token s response
              Htoken Htruthy Hnet Hok) as (e & He & ->).
  cbn [snd alerts]. rewrite Hjson in He. unfold failure_message in He.
  rewrite Hget in He. cbn [mbind result_bind] in He. rewrite Hm in He.
  subst e.
  split; [| split; [| split; [| split]]].
  - intros text ->. reflexivity.
  - intros message ->. reflexivity.
  - intros ->. reflexivity.
  - intros n ->. reflexivity.
  - intros properties -> Hnone. cbn [ToString]. rewrite Hnone. reflexivity.
Qed.

Lemma refusal_message_conversion_witness :
  alerts
    (snd (call (handleSubmit (str "https://api")
                  (fun _ _ =>
                     Returns {| ok := false;
                                response_json :=
                                  Returns (JObject
                                             [(str "message",
                                               JArray [JString (str "a"); JNull;
                                                       JString (str "b")])]) |}))
            (mount {[ str "urltoken" := str "t" ]})))
  = [str "a,,b"].
Proof.
  set (s := mount {[ str "urltoken" := str "t" ]}).
  assert (Htoken : localStorage s !! str "urltoken" = Some (str "t"))
    by reflexivity.
  pose proof (refusal_message_conversion (str "https://api")
                (fun _ _ =>
                   Returns {| ok := false;
                              response_json :=
                                Returns (JObject
                                           [(str "message",
                                             JArray [JString (str "a"); JNull;
                                                     JString (str "b")])]) |})
                (str "t") s _ _ (JArray [JString (str "a"); JNull; JString (str "b")])
                Htoken eq_refl eq_refl eq_refl eq_refl eq_refl eq_refl) as H.
  cbv zeta in H. destruct H as (Htext & _).
  apply (Htext (str "a,,b")). reflexivity.
Defined.

End EdgeMore.


Module InFlightMore.



End InFlightMore.
